(** * Stock news sentiment analyzer: a shallow embedding of [src/app]

    The development follows the modules of the application:
    - [scraper.py]   : [extract_article_text];
    - [sentiment.py] : [analyze_sentiment], [calculate_combined_sentiment];
    - [data.py]      : [get_stock_news], [process_article],
                       [analyze_stock_news_sentiment],
                       [perform_stock_news_analysis];
    - [config.py]    : [initialize_session_state].

    Conventions.
    - A Python [str] is a [string], one [ascii] per character; the emoji
      constants are carried as their UTF-8 bytes, nothing measures them.
    - A Python [float] is the rational it denotes ([Q]); comparisons are
      then exact.  The literal [0.1] is the binary64 number nearest to one
      tenth, [py_0_1].  The quotient shown on the progress bar is taken
      exactly.
    - The network, the HTML parser, the lexicon model (TextBlob) and the
      mean of a column (pandas) are parameters of the development;
      [Binary64.mean] is the mean that binary64 arithmetic gives on a
      short column. *)

From Stdlib Require Import ZArith QArith String Ascii List Sorted Lia.
From Stdlib Require SpecFloat.
From stdpp Require Import gmap strings pretty.
Import ListNotations.

Local Open Scope string_scope.
Local Open Scope list_scope.

(** ** Python strings *)

Module PyStr.

(** [str.isspace] on one character: the class used by [str.strip()] and by
    the regular expression [\s] on [str] patterns. *)
Definition isspace (c : ascii) : bool :=
  let n := N_of_ascii c in
  ((9 <=? n) && (n <=? 13) || (28 <=? n) && (n <=? 32)
   || (n =? 133) || (n =? 160))%N.

Definition nonempty (s : string) : bool :=
  match s with EmptyString => false | String _ _ => true end.

Fixpoint lstrip (s : string) : string :=
  match s with
  | EmptyString => EmptyString
  | String c s' => if isspace c then lstrip s' else s
  end.

Fixpoint rstrip (s : string) : string :=
  match s with
  | EmptyString => EmptyString
  | String c s' =>
      let r := rstrip s' in
      if isspace c && negb (nonempty r) then EmptyString else String c r
  end.

(** [s.strip()] *)
Definition strip (s : string) : string := rstrip (lstrip s).

(** [sep.join(l)] *)
Fixpoint join (sep : string) (l : list string) : string :=
  match l with
  | [] => EmptyString
  | [x] => x
  | x :: l' => x ++ sep ++ join sep l'
  end.

(** [re.sub(r'\s+', ' ', s)]: every maximal run of whitespace becomes one
    space.  [in_run] tells that the previous character was whitespace. *)
Fixpoint sub_spaces (in_run : bool) (s : string) : string :=
  match s with
  | EmptyString => EmptyString
  | String c s' =>
      if isspace c
      then if in_run then sub_spaces true s'
           else String " " (sub_spaces true s')
      else String c (sub_spaces false s')
  end.

Definition re_sub_spaces (s : string) : string := sub_spaces false s.

(** [s[:n]] *)
Fixpoint take (n : nat) (s : string) : string :=
  match n, s with
  | O, _ => EmptyString
  | S n', String c s' => String c (take n' s')
  | S _, EmptyString => EmptyString
  end.

(** [s.replace(old, new)] for a non-empty [old]: occurrences are taken
    from left to right and do not overlap.  [skip] counts the characters
    of the occurrence just replaced that are still to be passed over. *)
Fixpoint replace_from (old new : string) (skip : nat) (s : string) : string :=
  match s with
  | EmptyString => EmptyString
  | String c s' =>
      match skip with
      | S k => replace_from old new k s'
      | O =>
          if String.prefix old s
          then new ++ replace_from old new (String.length old - 1) s'
          else String c (replace_from old new 0 s')
      end
  end.

Definition replace (old new s : string) : string := replace_from old new 0 s.

End PyStr.

(** ** Python floats, as the rationals they denote *)

Module PyFloat.

(** The literal [0.1]: 0x3FB999999999999A = 3602879701896397 / 2^55. *)
Definition py_0_1 : Q := 3602879701896397 # 36028797018963968.

(** [x > y] and [x < y] *)
Definition gt (x y : Q) : bool := negb (Qle_bool x y).
Definition lt (x y : Q) : bool := negb (Qle_bool y x).


End PyFloat.

(** ** Binary64 arithmetic, after the IEEE 754 specification of the
    Standard Library *)

Module Binary64.

Definition prec : Z := 53.
Definition emax : Z := 1024.

Definition of_Z (z : Z) : SpecFloat.spec_float :=
  SpecFloat.binary_normalize prec emax z 0 false.

(** The float that denotes [q]; a rational that no float denotes is
    rounded. *)
Definition of_Q (q : Q) : SpecFloat.spec_float :=
  SpecFloat.SFdiv prec emax (of_Z (Qnum q)) (of_Z (Zpos (Qden q))).

(** The rational a finite float denotes. *)
Definition to_Q (x : SpecFloat.spec_float) : Q :=
  match x with
  | SpecFloat.S754_finite s m e =>
      let v := match e with
               | Z0 => Zpos m # 1
               | Zpos p => (Zpos m * 2 ^ Zpos p) # 1
               | Zneg p => Zpos m # (2 ^ p)
               end in
      if s then Qopp v else v
  | _ => 0
  end.

(** The mean of a column of fewer than eight floats as binary64 arithmetic
    gives it: the values are added from left to right and the sum is
    divided by their number, with a rounding after each operation. *)
Definition mean (l : list Q) : Q :=
  to_Q (SpecFloat.SFdiv prec emax
          (fold_left (SpecFloat.SFadd prec emax) (map of_Q l)
             (SpecFloat.S754_zero false))
          (of_Z (Z.of_nat (length l)))).

End Binary64.

(** ** Parsed HTML, as BeautifulSoup presents it *)

Module Soup.

#[local] Set Warnings "-register-all".

(** [Text] is a string that [get_text()] returns; [Comment] is one that it
    skips (a comment, a declaration and the like). *)
Inductive node : Type :=
| Text (s : string)
| Comment (s : string)
| Tag (name : string) (children : list node).

Definition named (names : list string) (nm : string) : bool :=
  existsb (String.eqb nm) names.

(** [tag.get_text()]: the strings below the node, in document order;
    comments are not text. *)
Fixpoint get_text (n : node) : string :=
  match n with
  | Text s => s
  | Comment _ => EmptyString
  | Tag _ cs => String.concat EmptyString (map get_text cs)
  end.

(** [tag.find_all(names)], seen from the parent of [n]: the matching
    elements at and below [n], in document order; a match nested in a match
    is listed too. *)
Fixpoint find_all_at (names : list string) (n : node) : list node :=
  match n with
  | Tag nm cs =>
      (if named names nm then [n] else []) ++ flat_map (find_all_at names) cs
  | _ => []
  end.

(** [soup.find_all(names)], also written [soup(names)] *)
Definition find_all (names : list string) (soup : list node) : list node :=
  flat_map (find_all_at names) soup.

(** What is left of [n] in its parent once every element of
    [soup(names)] has been [extract()]ed: nothing when [n] itself is such an
    element, else [n] without the elements below it. *)
Fixpoint prune (names : list string) (n : node) : list node :=
  match n with
  | Tag nm cs =>
      if named names nm then [] else [Tag nm (flat_map (prune names) cs)]
  | _ => [n]
  end.

(** [for t in soup(names): t.extract()] *)
Definition extract_all (names : list string) (soup : list node) : list node :=
  flat_map (prune names) soup.

End Soup.

(** ** Effects: exceptions, the page, the network counters, the session *)

Inductive exn : Type := Exception (msg : string).

Inductive outcome (A : Type) : Type :=
| Ok (a : A)
| Raise (e : exn).
Arguments Ok {A} a.
Arguments Raise {A} e.

(** The [requests] response, as far as the scraper reads it. *)
Record response : Type := { status_code : Z; text : string }.

(** One row of the result: the dictionary built by [process_article].
    [raw_text] is [None] once [del result['raw_text']] has run. *)
Record article_data : Type := {
  title : string;
  publisher : string;
  link : string;
  headline_polarity : Q;
  headline_subjectivity : Q;
  headline_sentiment : string;
  headline_emoji : string;
  full_text_polarity : Q;
  full_text_subjectivity : Q;
  full_text_sentiment : string;
  full_text_emoji : string;
  article_text : string;
  published : string;
  raw_text : option string
}.

(** The dictionary returned by [calculate_combined_sentiment]. *)
Record combined : Type := {
  polarity : Q;
  subjectivity : Q;
  sentiment : string;
  emoji : string
}.

(** The tuple returned by [analyze_stock_news_sentiment]; a DataFrame is
    the list of its rows. *)
Definition analysis : Type :=
  (Q * Q * string * list article_data * option combined)%type.

(** A provider payload: a dictionary of text fields. *)
Abbreviation article := (gmap string string).

(** What the run shows or does besides computing, in order of occurrence. *)
Inductive ui_event : Type :=
| StError (msg : string)
| StWarning (msg : string)
| StSpinner (msg : string)
| StEmpty
| StatusText (msg : string)
| StatusEmpty
| ProgressNew (value : Q)
| Progress (value : Q)
| ProgressEmpty
| Print (news : list article)
| Sleep (seconds : Q).

(** [st.session_state] after [initialize_session_state]; the key
    [num_articles] may be missing. *)
Record session_state : Type := {
  ss_ticker : string;
  ss_avg_polarity : Q;
  ss_avg_subjectivity : Q;
  ss_overall_sentiment : string;
  ss_news_df : list article_data;
  ss_combined_sentiment : option combined;
  ss_analysis_performed : bool;
  ss_num_articles : option nat
}.

Record world : Type := {
  http_calls : nat;          (* requests sent by [requests.get] so far *)
  news_calls : nat;          (* queries sent by [yf.Search] so far *)
  ui : list ui_event;        (* oldest first *)
  session : session_state
}.

Definition M (A : Type) : Type := world -> outcome A * world.

Definition ret {A} (a : A) : M A := fun w => (Ok a, w).

Definition bind {A B} (m : M A) (k : A -> M B) : M B :=
  fun w =>
    match m w with
    | (Ok a, w') => k a w'
    | (Raise e, w') => (Raise e, w')
    end.

(** [try: body  except Exception as e: handler(e)] *)
Definition try_except {A} (body : M A) (handler : exn -> M A) : M A :=
  fun w =>
    match body w with
    | (Ok a, w') => (Ok a, w')
    | (Raise e, w') => handler e w'
    end.

Notation "x <- c ;; k" := (bind c (fun x => k))
  (at level 20, c at level 99, k at level 200, right associativity).
Notation "c ;; k" := (bind c (fun _ => k))
  (at level 100, k at level 200, right associativity).

Definition emit (e : ui_event) : M unit :=
  fun w =>
    (Ok tt, {| http_calls := http_calls w; news_calls := news_calls w;
               ui := ui w ++ [e]; session := session w |}).

Definition get_session : M session_state := fun w => (Ok (session w), w).

Definition put_session (s : session_state) : M unit :=
  fun w =>
    (Ok tt, {| http_calls := http_calls w; news_calls := news_calls w;
               ui := ui w; session := s |}).

(** [config.initialize_session_state] on a fresh session. *)
Definition initial_session : session_state :=
  {| ss_ticker := ""; ss_avg_polarity := 0; ss_avg_subjectivity := 0;
     ss_overall_sentiment := "Neutral"; ss_news_df := [];
     ss_combined_sentiment := None; ss_analysis_performed := false;
     ss_num_articles := Some 3%nat |}.

Definition initial_world : world :=
  {| http_calls := 0; news_calls := 0; ui := []; session := initial_session |}.

Definition raise {A} (e : exn) : M A := fun w => (Raise e, w).

Definition exn_str (e : exn) : string := let 'Exception msg := e in msg.

(** [not l] for a list *)
Definition is_empty {A} (l : list A) : bool :=
  match l with [] => true | _ :: _ => false end.

(** [d.get(key, dflt)] *)
Definition dict_get (d : article) (key dflt : string) : string :=
  default dflt (d !! key).

(** [x / y] on two [int]s *)
Definition int_div (x y : nat) : Q :=
  (inject_Z (Z.of_nat x) / inject_Z (Z.of_nat y))%Q.

(** [del result['raw_text']] *)
Definition del_raw_text (r : article_data) : article_data :=
  {| title := title r; publisher := publisher r; link := link r;
     headline_polarity := headline_polarity r;
     headline_subjectivity := headline_subjectivity r;
     headline_sentiment := headline_sentiment r;
     headline_emoji := headline_emoji r;
     full_text_polarity := full_text_polarity r;
     full_text_subjectivity := full_text_subjectivity r;
     full_text_sentiment := full_text_sentiment r;
     full_text_emoji := full_text_emoji r;
     article_text := article_text r; published := published r;
     raw_text := None |}.

(** ** Test doubles for the collaborators *)

Module Stub.

(** A server that times out on [boom], fails on [500] and otherwise
    answers with the URL as its page. *)
Definition requests_get (k : nat) (url : string) : outcome response :=
  if String.eqb url "boom" then Raise (Exception "timed out")
  else if String.eqb url "500" then Ok {| status_code := 500; text := "" |}
  else Ok {| status_code := 200; text := url |}.

(** The page [<aside><p>ad</p></aside>]. *)
Definition aside_page : list Soup.node :=
  [Soup.Tag "aside" [Soup.Tag "p" [Soup.Text "ad"]]].

(** A parser that rejects [bad] and otherwise sees [aside_page]. *)
Definition html_parser (markup : string) : outcome (list Soup.node) :=
  if String.eqb markup "bad" then Raise (Exception "bad markup")
  else Ok aside_page.

(** A provider with nothing on [NONE], one headline without a link on
    [ONE], and three headlines otherwise: one without a link, one whose
    page is served, one whose server fails. *)
Definition yf_search (k : nat) (ticker : string) (n : nat)
  : outcome (list article) :=
  if String.eqb ticker "NONE" then Ok []
  else if String.eqb ticker "ONE" then Ok [{[ "title" := "Quiet day" ]}]
  else Ok [ {[ "title" := "Quiet day" ]};
            {[ "title" := "Record profit"; "link" := "u" ]};
            {[ "title" := "Outage"; "link" := "500" ]} ].

(** A lexicon that scores the empty text [0.0, 0.0], texts starting with
    [R] [0.5, 0.5], and everything else [0.1, 0.25]. *)
Definition textblob (t : string) : Q * Q :=
  if String.eqb t "" then (0, 0)%Q
  else if String.prefix "R" t then (1 # 2, 1 # 2)%Q
  else (PyFloat.py_0_1, 1 # 4)%Q.

End Stub.

(** ** The application *)

Section App.

(** [requests.get(url, headers=headers, timeout=10)]: the answer to the
    [k]-th request of the run, or the exception it raises. *)
Variable requests_get : nat -> string -> outcome response.

(** [BeautifulSoup(markup, 'html.parser')]: the top-level nodes of the
    parsed document, or the exception raised while parsing. *)
Variable html_parser : string -> outcome (list Soup.node).

(** [yf.Search(ticker, news_count=n).news] for the [k]-th query. *)
Variable yf_search : nat -> string -> nat -> outcome (list article).

(** [TextBlob(text).sentiment]: polarity and subjectivity. *)
Variable textblob : string -> Q * Q.

(** [Series.mean()] of a float64 column, as pandas computes it. *)
Variable series_mean : list Q -> Q.

Definition http_get (url : string) : M response :=
  fun w =>
    (requests_get (http_calls w) url,
     {| http_calls := S (http_calls w); news_calls := news_calls w;
        ui := ui w; session := session w |}).

Definition BeautifulSoup (markup : string) : M (list Soup.node) :=
  fun w => (html_parser markup, w).

Definition Search_news (ticker : string) (n : nat) : M (list article) :=
  fun w =>
    (yf_search (news_calls w) ticker n,
     {| http_calls := http_calls w; news_calls := S (news_calls w);
        ui := ui w; session := session w |}).

(** *** scraper.py *)

Definition dropped_tags : list string :=
  ["script"; "style"; "header"; "footer"; "nav"].

Definition boilerplate : string :=
  "Oops, something went wrong Unlock stock picks and a broker-level newsfeed that powers Wall".

(** The text taken from a parsed page: the statements of
    [extract_article_text] between the parse and the [return]. *)
Definition page_text (soup : list Soup.node) : string :=
  let soup := Soup.extract_all dropped_tags soup in
  let paragraphs := Soup.find_all ["p"] soup in
  let article_text :=
    PyStr.join " " (map (fun p => PyStr.strip (Soup.get_text p)) paragraphs) in
  let article_text := PyStr.strip (PyStr.re_sub_spaces article_text) in
  PyStr.replace boilerplate "" article_text.

Definition extract_article_text (url : string) : M string :=
  try_except
    (response <- http_get url ;;
     if negb (status_code response =? 200)%Z then ret ""
     else
       soup <- BeautifulSoup (text response) ;;
       ret (page_text soup))
    (fun e =>
       emit (StWarning ("Could not extract text from " ++ url
                        ++ ". Error: " ++ exn_str e)) ;;
       ret "").

(** *** sentiment.py *)

Definition analyze_sentiment (text : string) : Q * Q * string * string :=
  let polarity := fst (textblob text) in
  let subjectivity := snd (textblob text) in
  if PyFloat.gt polarity PyFloat.py_0_1
  then (polarity, subjectivity, "Positive", "😊")
  else if PyFloat.lt polarity (- PyFloat.py_0_1)
  then (polarity, subjectivity, "Negative", "😠")
  else (polarity, subjectivity, "Neutral", "😐").

Definition calculate_combined_sentiment (article_texts : list string)
  : option combined :=
  let combined_text := PyStr.join " " article_texts in
  if negb (PyStr.nonempty combined_text) then None
  else
    let '(p, s, l, e) := analyze_sentiment combined_text in
    Some {| polarity := p; subjectivity := s; sentiment := l; emoji := e |}.

(** *** data.py *)

Definition get_stock_news (ticker_symbol : string) (num_articles : nat)
  : M (list article) :=
  try_except
    (news <- Search_news ticker_symbol num_articles ;;
     emit (Print news) ;;
     if negb (is_empty news) && (0 <? length news)%nat
     then ret (firstn num_articles news)
     else ret [])
    (fun e =>
       emit (StError ("Error fetching news for " ++ ticker_symbol
                      ++ ": " ++ exn_str e)) ;;
       ret []).

Definition failure_text : string := "Could not extract full article text".

Definition process_article (a : article) (index total_articles : nat)
  : M article_data :=
  emit (StatusText ("Processing article " ++ pretty (index + 1)%nat
                    ++ " of " ++ pretty total_articles ++ "...")) ;;
  let article_url := dict_get a "link" "" in
  let title_ := dict_get a "title" "" in
  let summary := dict_get a "summary" "" in
  let headline_text := (title_ ++ " " ++ summary)%string in
  let headline := analyze_sentiment headline_text in
  article_full_text <-
    (if PyStr.nonempty article_url
     then
       emit (StatusText ("Extracting text from article "
                         ++ pretty (index + 1)%nat ++ "...")) ;;
       t <- extract_article_text article_url ;;
       emit (Sleep (1 # 2)) ;;
       ret t
     else ret "") ;;
  let full_text :=
    if PyStr.nonempty article_full_text
    then analyze_sentiment article_full_text
    else headline in
  let article_full_text :=
    if PyStr.nonempty article_full_text then article_full_text
    else failure_text in
  let '(headline_polarity_, headline_subjectivity_, headline_sentiment_,
        headline_emoji_) := headline in
  let '(full_text_polarity_, full_text_subjectivity_, full_text_sentiment_,
        full_text_emoji_) := full_text in
  ret {| title := title_;
         publisher := dict_get a "publisher" "Unknown";
         link := article_url;
         headline_polarity := headline_polarity_;
         headline_subjectivity := headline_subjectivity_;
         headline_sentiment := headline_sentiment_;
         headline_emoji := headline_emoji_;
         full_text_polarity := full_text_polarity_;
         full_text_subjectivity := full_text_subjectivity_;
         full_text_sentiment := full_text_sentiment_;
         full_text_emoji := full_text_emoji_;
         article_text :=
           if (500 <? String.length article_full_text)%nat
           then PyStr.take 500 article_full_text ++ "..."
           else article_full_text;
         published := dict_get a "providerPublishTime" "Unknown";
         raw_text := Some article_full_text |}.

(** The [for i, article in enumerate(news_articles)] loop, from index [i]
    on, with the two accumulators of the source. *)
Fixpoint process_loop (articles : list article) (i total : nat)
    (results : list article_data) (all_article_texts : list string)
  : M (list article_data * list string) :=
  match articles with
  | [] => ret (results, all_article_texts)
  | a :: rest =>
      article_data_ <- process_article a i total ;;
      let results := results ++ [article_data_] in
      all_article_texts <-
        match raw_text article_data_ with
        | None => raise (Exception "KeyError: 'raw_text'")
        | Some t =>
            ret (if PyStr.nonempty t then all_article_texts ++ [t]
                 else all_article_texts)
        end ;;
      emit (Progress (int_div (i + 1) total)) ;;
      process_loop rest (S i) total results all_article_texts
  end.

Definition overall_label (avg_polarity : Q) : string :=
  if PyFloat.gt avg_polarity PyFloat.py_0_1 then "Positive"
  else if PyFloat.lt avg_polarity (- PyFloat.py_0_1) then "Negative"
  else "Neutral".

Definition analyze_stock_news_sentiment (ticker_symbol : string)
    (num_articles : nat) : M analysis :=
  news_articles <- get_stock_news ticker_symbol num_articles ;;
  if is_empty news_articles then ret (0%Q, 0%Q, "Neutral", [], None)
  else
    emit (ProgressNew 0) ;;
    emit StEmpty ;;
    looped <- process_loop news_articles 0 (length news_articles) [] [] ;;
    let results := fst looped in
    let all_article_texts := snd looped in
    emit ProgressEmpty ;;
    emit StatusEmpty ;;
    let news_df := map del_raw_text results in
    let avg_polarity :=
      if negb (is_empty news_df)
      then series_mean (map full_text_polarity news_df) else 0%Q in
    let avg_subjectivity :=
      if negb (is_empty news_df)
      then series_mean (map full_text_subjectivity news_df) else 0%Q in
    let overall_sentiment :=
      if negb (is_empty news_df) then overall_label avg_polarity
      else "Neutral" in
    let combined_sentiment := calculate_combined_sentiment all_article_texts in
    ret (avg_polarity, avg_subjectivity, overall_sentiment, news_df,
         combined_sentiment).

(** The saved results, as the cache-hit branch returns them. *)
Definition saved_results (ss : session_state) : analysis :=
  (ss_avg_polarity ss, ss_avg_subjectivity ss, ss_overall_sentiment ss,
   ss_news_df ss, ss_combined_sentiment ss).

(** The seven assignments that save a result to the session. *)
Definition save_results (ticker : string) (r : analysis) (ss : session_state)
  : session_state :=
  let '(avg_polarity, avg_subjectivity, overall_sentiment, news_df,
        combined_sentiment) := r in
  {| ss_ticker := ticker; ss_avg_polarity := avg_polarity;
     ss_avg_subjectivity := avg_subjectivity;
     ss_overall_sentiment := overall_sentiment; ss_news_df := news_df;
     ss_combined_sentiment := combined_sentiment;
     ss_analysis_performed := true;
     ss_num_articles := ss_num_articles ss |}.

Definition cached (ticker : string) (ss : session_state) : bool :=
  String.eqb (ss_ticker ss) ticker && ss_analysis_performed ss.

Definition perform_stock_news_analysis (ticker : string)
  : M (option analysis) :=
  if negb (PyStr.nonempty ticker)
  then
    emit (StWarning "⚠️ Please enter a stock ticker above before analyzing.") ;;
    ret None
  else
    ss <- get_session ;;
    if cached ticker ss then ret (Some (saved_results ss))
    else
      emit (StSpinner ("Fetching and analyzing recent news for "
                       ++ ticker ++ "...")) ;;
      ss <- get_session ;;
      let num_articles := default 3%nat (ss_num_articles ss) in
      r <- analyze_stock_news_sentiment ticker num_articles ;;
      ss <- get_session ;;
      put_session (save_results ticker r ss) ;;
      if is_empty (snd (fst r))
      then
        emit (StWarning ("No news articles found for " ++ ticker
               ++ ". Please check the ticker symbol and try again.")) ;;
        ret None
      else ret (Some r).

(** ** Vocabulary of the statements *)

(** The world after one more request. *)
Definition requested (w : world) : world :=
  {| http_calls := S (http_calls w); news_calls := news_calls w;
     ui := ui w; session := session w |}.

(** The world after one more event on the page. *)
Definition shown (e : ui_event) (w : world) : world :=
  {| http_calls := http_calls w; news_calls := news_calls w;
     ui := ui w ++ [e]; session := session w |}.

(** The warning shown when extraction fails with exception [e]. *)
Definition extract_warning (url : string) (e : exn) : ui_event :=
  StWarning ("Could not extract text from " ++ url ++ ". Error: " ++ exn_str e).

(** The label as a function of the polarity: what the thresholds say. *)
Definition label_of (p : Q) (l : string) : Prop :=
  (l = "Positive" <-> (PyFloat.py_0_1 < p)%Q) /\
  (l = "Negative" <-> (p < - PyFloat.py_0_1)%Q) /\
  (l = "Neutral" <-> (- PyFloat.py_0_1 <= p <= PyFloat.py_0_1)%Q).

(** The two status lines of [process_article]. *)
Definition processing_status (index total_articles : nat) : ui_event :=
  StatusText ("Processing article " ++ pretty (index + 1)%nat
              ++ " of " ++ pretty total_articles ++ "...").

Definition extracting_status (index : nat) : ui_event :=
  StatusText ("Extracting text from article "
              ++ pretty (index + 1)%nat ++ "...").

(** The dictionary [process_article] builds for article [a] once the
    extractor has answered [extracted] (the empty string when there was no
    link to ask for). *)
Definition article_record (a : article) (extracted : string) : article_data :=
  let headline :=
    analyze_sentiment (dict_get a "title" "" ++ " " ++ dict_get a "summary" "")
  in
  let full_text :=
    if PyStr.nonempty extracted then analyze_sentiment extracted
    else headline in
  let article_full_text :=
    if PyStr.nonempty extracted then extracted else failure_text in
  {| title := dict_get a "title" "";
     publisher := dict_get a "publisher" "Unknown";
     link := dict_get a "link" "";
     headline_polarity := fst (fst (fst headline));
     headline_subjectivity := snd (fst (fst headline));
     headline_sentiment := snd (fst headline);
     headline_emoji := snd headline;
     full_text_polarity := fst (fst (fst full_text));
     full_text_subjectivity := snd (fst (fst full_text));
     full_text_sentiment := snd (fst full_text);
     full_text_emoji := snd full_text;
     article_text :=
       if (500 <? String.length article_full_text)%nat
       then PyStr.take 500 article_full_text ++ "..."
       else article_full_text;
     published := dict_get a "providerPublishTime" "Unknown";
     raw_text := Some article_full_text |}.

(** The events that mark the progress of the loop: the first status line
    of an article, and an update of the progress bar. *)
Definition is_milestone (e : ui_event) : bool :=
  match e with
  | StatusText msg => String.prefix "Processing article " msg
  | Progress _ => true
  | _ => false
  end.


(** [w'] is [w] after the events [evs], possibly after some requests: the
    news counter and the session are those of [w]. *)
Definition extends (w w' : world) (evs : list ui_event) : Prop :=
  news_calls w' = news_calls w /\ session w' = session w /\
  ui w' = ui w ++ evs.

(** The text a record carries for the combined analysis. *)
Definition raw_of (r : article_data) : string := default "" (raw_text r).

(** The record [r] is the one built for article [a]. *)
Definition record_of (a : article) (r : article_data) : Prop :=
  exists extracted, r = article_record a extracted.

(** The milestones of the loop over [n] articles, from index [i] on. *)
Definition milestones (i n total : nat) : list ui_event :=
  flat_map (fun k => [processing_status k total;
                      Progress (int_div (k + 1) total)]) (seq i n).




(** The world with the session replaced. *)
Definition with_session (s : session_state) (w : world) : world :=
  {| http_calls := http_calls w; news_calls := news_calls w;
     ui := ui w; session := s |}.

(** The rows of a result. *)
Definition rows (r : analysis) : list article_data := snd (fst r).

(** The result returned when there is no news. *)
Definition no_news : analysis := (0%Q, 0%Q, "Neutral", [], None).

Definition ticker_warning : ui_event :=
  StWarning "⚠️ Please enter a stock ticker above before analyzing.".

Definition no_news_warning (ticker : string) : ui_event :=
  StWarning ("No news articles found for " ++ ticker
             ++ ". Please check the ticker symbol and try again.").

Definition spinner (ticker : string) : ui_event :=
  StSpinner ("Fetching and analyzing recent news for " ++ ticker ++ "...").

(** The specification of the extracted text, in its own words.

    [split_ws s] reads [s] as words separated by whitespace: the word that
    starts [s] (empty when [s] starts with whitespace or is empty) and the
    words after it. *)
Fixpoint split_ws (s : string) : string * list string :=
  match s with
  | EmptyString => (EmptyString, [])
  | String c s' =>
      let '(w, ws) := split_ws s' in
      if PyStr.isspace c
      then (EmptyString, if PyStr.nonempty w then w :: ws else ws)
      else (String c w, ws)
  end.

(** The words of [s]: its maximal runs of characters other than
    whitespace. *)
Definition words (s : string) : list string :=
  let '(w, ws) := split_ws s in if PyStr.nonempty w then w :: ws else ws.

(** The text of a node that is outside the elements named [dropped]. *)
Fixpoint visible_text (dropped : list string) (n : Soup.node) : string :=
  match n with
  | Soup.Text s => s
  | Soup.Comment _ => EmptyString
  | Soup.Tag nm cs =>
      if Soup.named dropped nm then EmptyString
      else String.concat EmptyString (map (visible_text dropped) cs)
  end.

(** The texts of the paragraph elements at and below [n] that are outside
    the elements named [dropped], in document order. *)
Fixpoint paragraphs_at (dropped : list string) (n : Soup.node) : list string :=
  match n with
  | Soup.Tag nm cs =>
      if Soup.named dropped nm then []
      else (if Soup.named ["p"] nm then [visible_text dropped n] else [])
           ++ flat_map (paragraphs_at dropped) cs
  | _ => []
  end.

(** The page text when the elements named [dropped] are the ones dropped:
    the words of the paragraphs outside them, in order, one space between
    two words, without the boilerplate fragment. *)
Definition spec_page_text (dropped : list string) (soup : list Soup.node)
  : string :=
  PyStr.replace boilerplate ""
    (PyStr.join " " (flat_map words (flat_map (paragraphs_at dropped) soup))).

(** The elements that are to be dropped according to the design document. *)
Definition documented_tags : list string :=
  ["script"; "style"; "header"; "footer"; "nav"; "aside"].

(** What follows a first word: nothing, or a space and the other words. *)
Definition after_word (ws : list string) : string :=
  match ws with
  | [] => EmptyString
  | _ :: _ => " " ++ PyStr.join " " ws
  end.


(** Induction on a node with the hypothesis for every child. *)
Fixpoint node_ind_all (P : Soup.node -> Prop)
    (HText : forall s, P (Soup.Text s))
    (HComment : forall s, P (Soup.Comment s))
    (HTag : forall nm cs, Forall P cs -> P (Soup.Tag nm cs))
    (n : Soup.node) : P n :=
  match n with
  | Soup.Text s => HText s
  | Soup.Comment s => HComment s
  | Soup.Tag nm cs =>
      HTag nm cs
        ((fix all (l : list Soup.node) : Forall P l :=
            match l with
            | [] => List.Forall_nil P
            | c :: l' =>
                List.Forall_cons P c l'
                  (node_ind_all P HText HComment HTag c) (all l')
            end) cs)
  end.

(** ** The rest of the application *)

(** *** config.py *)

(** A value kept in [st.session_state]. *)
Inductive ss_value : Type :=
| SNone
| SStr (s : string)
| SFloat (x : Q)
| SInt (n : nat)
| SBool (b : bool)
| SFrame (df : list article_data)
| SDict (c : combined).

(** [if key not in st.session_state: st.session_state[key] = v] *)
Definition init_key (key : string) (v : ss_value) (m : gmap string ss_value)
  : gmap string ss_value :=
  match m !! key with
  | Some _ => m
  | None => <[key := v]> m
  end.

Definition initialize_session_state (m : gmap string ss_value)
  : gmap string ss_value :=
  let m := init_key "ticker" (SStr "") m in
  let m := init_key "avg_polarity" (SFloat 0) m in
  let m := init_key "avg_subjectivity" (SFloat 0) m in
  let m := init_key "overall_sentiment" (SStr "Neutral") m in
  let m := init_key "news_df" (SFrame []) m in
  let m := init_key "combined_sentiment" SNone m in
  let m := init_key "analysis_performed" (SBool false) m in
  init_key "num_articles" (SInt 3) m.

(** The values of a session in which nothing was set. *)
Definition session_defaults : gmap string ss_value :=
  {[ "ticker" := SStr ""; "avg_polarity" := SFloat 0;
     "avg_subjectivity" := SFloat 0; "overall_sentiment" := SStr "Neutral";
     "news_df" := SFrame []; "combined_sentiment" := SNone;
     "analysis_performed" := SBool false; "num_articles" := SInt 3%nat ]}.

(** The session as [data.py] and [main.py] read it: the seven attributes
    they access must be there, with values of the kind they are used as;
    [num_articles] is read with [get]. *)
Definition session_record (m : gmap string ss_value) : option session_state :=
  match m !! "ticker", m !! "avg_polarity", m !! "avg_subjectivity",
        m !! "overall_sentiment", m !! "news_df", m !! "analysis_performed"
  with
  | Some (SStr t), Some (SFloat p), Some (SFloat s), Some (SStr o),
    Some (SFrame df), Some (SBool b) =>
      let num := match m !! "num_articles" with
                 | Some (SInt n) => Some n
                 | _ => None
                 end in
      let record c :=
        {| ss_ticker := t; ss_avg_polarity := p; ss_avg_subjectivity := s;
           ss_overall_sentiment := o; ss_news_df := df;
           ss_combined_sentiment := c; ss_analysis_performed := b;
           ss_num_articles := num |} in
      match m !! "combined_sentiment" with
      | Some SNone => Some (record None)
      | Some (SDict c) => Some (record (Some c))
      | _ => None
      end
  | _, _, _, _, _, _ => None
  end.

(** *** main.py *)

(** What a run of the script leaves in the results area: nothing, the
    arguments of [display_analysis_results], or a rerun of the script. *)
Inductive page : Type :=
| Blank
| Results (ticker : string) (r : analysis)
| Rerun.

(** [st.session_state.ticker = ticker] *)
Definition set_ticker (ticker : string) (ss : session_state) : session_state :=
  {| ss_ticker := ticker; ss_avg_polarity := ss_avg_polarity ss;
     ss_avg_subjectivity := ss_avg_subjectivity ss;
     ss_overall_sentiment := ss_overall_sentiment ss;
     ss_news_df := ss_news_df ss;
     ss_combined_sentiment := ss_combined_sentiment ss;
     ss_analysis_performed := ss_analysis_performed ss;
     ss_num_articles := ss_num_articles ss |}.

(** The four assignments of the "Clear Saved Results" button. *)
Definition clear_saved (ss : session_state) : session_state :=
  {| ss_ticker := ""; ss_avg_polarity := ss_avg_polarity ss;
     ss_avg_subjectivity := ss_avg_subjectivity ss;
     ss_overall_sentiment := ss_overall_sentiment ss;
     ss_news_df := [];
     ss_combined_sentiment := None;
     ss_analysis_performed := false;
     ss_num_articles := ss_num_articles ss |}.

(** One run of [main] on an initialised session.  [ticker] is what the
    text input returns, in upper case; the two booleans are what the two
    buttons return.  The calls that lay out the page are left out, and so
    is what the widgets themselves write to the session (the slider keeps
    [num_articles]). *)
Definition main (ticker : string) (analyze_button clear_button : bool)
  : M page :=
  (if PyStr.nonempty ticker
   then ss <- get_session ;; put_session (set_ticker ticker ss)
   else ret tt) ;;
  if clear_button
  then
    ss <- get_session ;;
    put_session (clear_saved ss) ;;
    ret Rerun
  else if analyze_button
  then
    results <- perform_stock_news_analysis ticker ;;
    match results with
    | Some r => ret (Results ticker r)
    | None => ret Blank
    end
  else
    ss <- get_session ;;
    if ss_analysis_performed ss && PyStr.nonempty (ss_ticker ss)
    then ret (Results (ss_ticker ss) (saved_results ss))
    else ret Blank.

(** *** Vocabulary of the further statements *)

(** The article has a link to ask for. *)
Definition linked (a : article) : bool := PyStr.nonempty (dict_get a "link" "").

Fixpoint count_linked (news : list article) : nat :=
  match news with
  | [] => 0
  | a :: rest => (if linked a then 1 else 0) + count_linked rest
  end.

(** The number of pauses among the events. *)
Fixpoint sleeps (evs : list ui_event) : nat :=
  match evs with
  | [] => 0
  | Sleep _ :: rest => S (sleeps rest)
  | _ :: rest => sleeps rest
  end.

(** A parser that sees a page whose only paragraph is inside a script. *)
Definition script_only_parser (markup : string) : outcome (list Soup.node) :=
  Ok [Soup.Tag "script" [Soup.Tag "p" [Soup.Text "tracking"]];
      Soup.Tag "div" [Soup.Text "no paragraph here"]].

(** The world once [main] has stored what the text input returned. *)
Definition entered (ticker : string) (w : world) : world :=
  if PyStr.nonempty ticker
  then with_session (set_ticker ticker (session w)) w
  else w.

(** The clean-up of [extract_article_text]:
    [re.sub(r'\s+', ' ', text).strip()]. *)
Definition clean (s : string) : string := PyStr.strip (PyStr.re_sub_spaces s).

(** No character of [s] is whitespace. *)
Fixpoint spaceless (s : string) : bool :=
  match s with
  | EmptyString => true
  | String c s' => negb (PyStr.isspace c) && spaceless s'
  end.

(** ** Properties *)

(** *** Running a computation *)

Lemma bind_ok {A B} (m : M A) (k : A -> M B) w a w' :
  m w = (Ok a, w') -> bind m k w = k a w'.
Proof. intros H. unfold bind. now rewrite H. Qed.

Lemma bind_raise {A B} (m : M A) (k : A -> M B) w e w' :
  m w = (Raise e, w') -> bind m k w = (Raise e, w').
Proof. intros H. unfold bind. now rewrite H. Qed.

Lemma try_except_ok {A} (body : M A) handler w a w' :
  body w = (Ok a, w') -> try_except body handler w = (Ok a, w').
Proof. intros H. unfold try_except. now rewrite H. Qed.

Lemma try_except_raise {A} (body : M A) handler w e w' :
  body w = (Raise e, w') -> try_except body handler w = handler e w'.
Proof. intros H. unfold try_except. now rewrite H. Qed.

Lemma emit_run (e : ui_event) (w : world) : emit e w = (Ok tt, shown e w).
Proof. reflexivity. Qed.

(** *** sentiment.py *)

Lemma gt_spec (x y : Q) : PyFloat.gt x y = true <-> (y < x)%Q.
Proof.
  unfold PyFloat.gt. rewrite negb_true_iff, <- not_true_iff_false, Qle_bool_iff.
  split; [apply Qnot_le_lt | apply Qlt_not_le].
Qed.

Lemma lt_spec (x y : Q) : PyFloat.lt x y = true <-> (x < y)%Q.
Proof. unfold PyFloat.lt. apply (gt_spec y x). Qed.

Lemma py_0_1_pos : (- PyFloat.py_0_1 < PyFloat.py_0_1)%Q.
Proof. reflexivity. Qed.

Lemma overall_label_spec (p : Q) : label_of p (overall_label p).
Proof.
  unfold overall_label, label_of.
  destruct (PyFloat.gt p PyFloat.py_0_1) eqn:Hgt.
  - apply gt_spec in Hgt. repeat split; try discriminate; auto.
    + intros H. exfalso. pose proof py_0_1_pos.
      apply (Qlt_irrefl p). eapply Qlt_trans; [exact H|].
      eapply Qlt_trans; eassumption.
    + intros [_ H]. exfalso. apply (Qlt_not_le _ _ Hgt H).
  - assert (Hle : (p <= PyFloat.py_0_1)%Q).
    { apply Qnot_lt_le. intros H. apply gt_spec in H. congruence. }
    destruct (PyFloat.lt p (- PyFloat.py_0_1)) eqn:Hlt.
    + apply lt_spec in Hlt. repeat split; try discriminate; auto.
      * intros H. exfalso. apply (Qlt_not_le _ _ H Hle).
      * intros [H _]. exfalso. apply (Qlt_not_le _ _ Hlt H).
    + assert (Hge : (- PyFloat.py_0_1 <= p)%Q).
      { apply Qnot_lt_le. intros H. apply lt_spec in H. congruence. }
      repeat split; try discriminate; auto.
      * intros H. exfalso. apply (Qlt_not_le _ _ H Hle).
      * intros H. exfalso. apply (Qlt_not_le _ _ H Hge).
Qed.

Lemma analyze_sentiment_overall (t : string) :
  analyze_sentiment t =
  (fst (textblob t), snd (textblob t), overall_label (fst (textblob t)),
   snd (analyze_sentiment t)).
Proof.
  unfold analyze_sentiment, overall_label.
  destruct (PyFloat.gt _ _); [reflexivity|].
  destruct (PyFloat.lt _ _); reflexivity.
Qed.

(** C5. The label returned by [analyze_sentiment] is decided by the
    polarity alone, with strict thresholds: Positive exactly when the
    polarity is above [0.1], Negative exactly when it is below [-0.1],
    Neutral exactly in between, both bounds included.  With a lexicon
    that scores the empty text [(0.0, 0.0)], the empty text yields
    polarity [0.0], subjectivity [0.0] and the label Neutral. *)
Theorem analyze_sentiment_thresholds
    (Hempty : textblob "" = (0%Q, 0%Q)) (t : string) :
  (let '(p, s, l, _) := analyze_sentiment t in
   (p, s) = textblob t /\ label_of p l /\
   ((p == PyFloat.py_0_1 \/ p == - PyFloat.py_0_1)%Q -> l = "Neutral")) /\
  analyze_sentiment "" = (0%Q, 0%Q, "Neutral", "😐").
Proof.
  split.
  - rewrite analyze_sentiment_overall.
    split; [now destruct (textblob t)|].
    pose proof (overall_label_spec (fst (textblob t))) as Hl.
    split; [exact Hl|].
    destruct Hl as (_ & _ & Hn). intros [H | H]; apply Hn; rewrite H.
    + split; [apply Qlt_le_weak, py_0_1_pos | apply Qle_refl].
    + split; [apply Qle_refl | apply Qlt_le_weak, py_0_1_pos].
  - unfold analyze_sentiment. rewrite Hempty. reflexivity.
Qed.

(** *** scraper.py *)

(** The four ways a call of [extract_article_text] can go. *)
Lemma extract_article_text_run (url : string) (w : world) :
  (exists e, requests_get (http_calls w) url = Raise e /\
     extract_article_text url w
     = (Ok "", shown (extract_warning url e) (requested w))) \/
  (exists r, requests_get (http_calls w) url = Ok r /\
     status_code r <> 200%Z /\
     extract_article_text url w = (Ok "", requested w)) \/
  (exists r e, requests_get (http_calls w) url = Ok r /\
     status_code r = 200%Z /\ html_parser (text r) = Raise e /\
     extract_article_text url w
     = (Ok "", shown (extract_warning url e) (requested w))) \/
  (exists r soup, requests_get (http_calls w) url = Ok r /\
     status_code r = 200%Z /\ html_parser (text r) = Ok soup /\
     extract_article_text url w = (Ok (page_text soup), requested w)).
Proof.
  unfold extract_article_text, try_except, bind, http_get, BeautifulSoup.
  fold (requested w).
  destruct (requests_get (http_calls w) url) as [r | e] eqn:Hget.
  - destruct (Z.eqb_spec (status_code r) 200) as [H200 | H200]; simpl.
    + destruct (html_parser (text r)) as [soup | e] eqn:Hparse.
      * right; right; right. now exists r, soup.
      * right; right; left. now exists r, e.
    + right; left. now exists r.
  - left. now exists e.
Qed.

(** C3. [extract_article_text] returns a string on every URL and in every
    state: it never raises.  When the response status is not 200 (HTTP 500
    for one) the string is empty; when the request raises, or the parser
    raises on a 200 response, the string is empty and the one thing added
    to the page is the warning that names the URL and the exception. *)
Theorem extract_article_text_never_raises (url : string) (w : world) :
  exists s w',
    extract_article_text url w = (Ok s, w') /\
    (forall r, requests_get (http_calls w) url = Ok r ->
       status_code r <> 200%Z -> s = "" /\ w' = requested w) /\
    (forall e, requests_get (http_calls w) url = Raise e ->
       s = "" /\ w' = shown (extract_warning url e) (requested w)) /\
    (forall r e, requests_get (http_calls w) url = Ok r ->
       status_code r = 200%Z -> html_parser (text r) = Raise e ->
       s = "" /\ w' = shown (extract_warning url e) (requested w)).
Proof.
  destruct (extract_article_text_run url w)
    as [(e & Hget & Hrun) | [(r & Hget & Hst & Hrun)
       | [(r & e & Hget & Hst & Hparse & Hrun)
       | (r & soup & Hget & Hst & Hparse & Hrun)]]];
    eexists; eexists; (split; [exact Hrun|]);
    repeat split; intros; congruence.
Qed.

(** *** data.py: one article *)

Lemma extract_article_text_value (url : string) (w1 w2 : world) :
  http_calls w1 = http_calls w2 ->
  fst (extract_article_text url w1) = fst (extract_article_text url w2).
Proof.
  intros Hk.
  unfold extract_article_text, try_except, bind, http_get, BeautifulSoup.
  rewrite Hk.
  destruct (requests_get (http_calls w2) url) as [r | e]; [|reflexivity].
  destruct (negb (status_code r =? 200)%Z); [reflexivity|].
  destruct (html_parser (text r)); reflexivity.
Qed.

(** The extractor adds no milestone to the page and leaves the news
    counter and the session alone. *)
Lemma extract_article_text_extends (url : string) (w : world) :
  exists s w' evs,
    extract_article_text url w = (Ok s, w') /\ extends w w' evs /\
    filter is_milestone evs = [].
Proof.
  destruct (extract_article_text_run url w)
    as [(e & _ & Hrun) | [(r & _ & _ & Hrun)
       | [(r & e & _ & _ & _ & Hrun) | (r & soup & _ & _ & _ & Hrun)]]];
    rewrite Hrun.
  - eexists _, _, [_]. repeat split.
  - eexists _, _, []. repeat split. simpl. now rewrite app_nil_r.
  - eexists _, _, [_]. repeat split.
  - eexists _, _, []. repeat split. simpl. now rewrite app_nil_r.
Qed.

(** The two ways a call of [process_article] can go: no link, and the
    extractor is not asked; a link, and the record is built from the
    extractor's answer. *)
Lemma process_article_run (a : article) (index total : nat) (w : world) :
  let url := dict_get a "link" "" in
  let w0 := shown (processing_status index total) w in
  (PyStr.nonempty url = false /\
   process_article a index total w = (Ok (article_record a ""), w0)) \/
  (PyStr.nonempty url = true /\
   exists t w1,
     extract_article_text url (shown (extracting_status index) w0)
     = (Ok t, w1) /\
     process_article a index total w
     = (Ok (article_record a t), shown (Sleep (1 # 2)) w1)).
Proof.
  cbv zeta. unfold process_article.
  erewrite bind_ok by apply emit_run.
  change (shown (StatusText _) w) with (shown (processing_status index total) w).
  set (w0 := shown (processing_status index total) w).
  destruct (PyStr.nonempty (dict_get a "link" "")) eqn:Hurl.
  - right. split; [reflexivity|].
    destruct (extract_article_text_extends (dict_get a "link" "")
                (shown (extracting_status index) w0))
      as (t & w1 & evs & Hrun & _).
    exists t, w1. split; [exact Hrun|].
    erewrite bind_ok.
    2:{ erewrite bind_ok by apply emit_run.
        erewrite bind_ok by exact Hrun.
        erewrite bind_ok by apply emit_run.
        reflexivity. }
    unfold article_record, ret.
    destruct (analyze_sentiment _) as [[[? ?] ?] ?].
    destruct (if PyStr.nonempty t then _ else _) as [[[? ?] ?] ?].
    reflexivity.
  - left. split; [reflexivity|].
    erewrite bind_ok by reflexivity.
    unfold article_record, ret. simpl PyStr.nonempty. cbv iota.
    destruct (analyze_sentiment _) as [[[? ?] ?] ?].
    reflexivity.
Qed.

Lemma nonempty_false (s : string) : PyStr.nonempty s = false <-> s = "".
Proof. destruct s; simpl; split; congruence. Qed.

(** C6. Whenever extraction yields the empty text for a headline, be it
    that the headline has no link or that the extractor answers with the
    empty string, [process_article] returns a record whose full-text
    polarity, subjectivity, label and emoji are those of the headline, the
    headline sentiment being that of the title and the summary; failure is
    marked by the extracted text, which is the fixed string
    "Could not extract full article text", and so is the preview. *)
Theorem process_article_fallback (a : article) (index total : nat) (w : world)
    (Hfail : dict_get a "link" "" = "" \/
             fst (extract_article_text (dict_get a "link" "") w) = Ok "") :
  exists r w',
    process_article a index total w = (Ok r, w') /\
    (full_text_polarity r, full_text_subjectivity r, full_text_sentiment r,
     full_text_emoji r)
    = (headline_polarity r, headline_subjectivity r, headline_sentiment r,
       headline_emoji r) /\
    (headline_polarity r, headline_subjectivity r, headline_sentiment r,
     headline_emoji r)
    = analyze_sentiment (dict_get a "title" "" ++ " " ++ dict_get a "summary" "") /\
    raw_text r = Some failure_text /\
    article_text r = failure_text.
Proof.
  assert (Hrec : exists w', process_article a index total w
                            = (Ok (article_record a ""), w')).
  { destruct (process_article_run a index total w)
      as [(_ & Hrun) | (Hurl & t & w1 & Hext & Hrun)].
    - eexists; exact Hrun.
    - destruct Hfail as [Hnone | Hempty].
      + apply nonempty_false in Hnone. congruence.
      + erewrite extract_article_text_value in Hempty; [|
          instantiate (1 := shown (extracting_status index)
                              (shown (processing_status index total) w));
          reflexivity].
        rewrite Hext in Hempty. simpl in Hempty.
        injection Hempty as ->. eexists; exact Hrun. }
  destruct Hrec as (w' & Hrun).
  exists (article_record a ""), w'. split; [exact Hrun|].
  unfold article_record. simpl PyStr.nonempty. cbv iota. cbn [full_text_polarity
    full_text_subjectivity full_text_sentiment full_text_emoji
    headline_polarity headline_subjectivity headline_sentiment headline_emoji
    raw_text article_text].
  repeat split.
  now destruct (analyze_sentiment _) as [[[? ?] ?] ?].
Qed.

(** *** data.py: the news source *)

Lemma get_stock_news_run (ticker : string) (n : nat) (w : world) :
  exists news w1 evs,
    get_stock_news ticker n w = (Ok news, w1) /\
    news_calls w1 = S (news_calls w) /\ http_calls w1 = http_calls w /\
    session w1 = session w /\ ui w1 = ui w ++ evs /\
    filter is_milestone evs = [] /\ (length news <= n)%nat.
Proof.
  unfold get_stock_news, try_except, bind, Search_news.
  destruct (yf_search (news_calls w) ticker n) as [news | e].
  - simpl. destruct news as [| a news]; simpl.
    + eexists [], _, [_]. repeat split. simpl; lia.
    + eexists _, _, [_]. repeat split.
      change (length (firstn n (a :: news)) <= n)%nat.
      rewrite length_firstn. lia.
  - simpl. eexists [], _, [_]. repeat split. simpl; lia.
Qed.

(** *** data.py: the loop *)

Lemma extends_refl (w : world) : extends w w [].
Proof. unfold extends. now rewrite app_nil_r. Qed.

Lemma extends_trans (w1 w2 w3 : world) (evs1 evs2 : list ui_event) :
  extends w1 w2 evs1 -> extends w2 w3 evs2 -> extends w1 w3 (evs1 ++ evs2).
Proof.
  unfold extends. intros (Hn1 & Hs1 & Hu1) (Hn2 & Hs2 & Hu2).
  rewrite Hn2, Hs2, Hu2, Hu1, app_assoc. auto.
Qed.

Lemma extends_shown (e : ui_event) (w : world) : extends w (shown e w) [e].
Proof. repeat split. Qed.

Lemma process_article_extends (a : article) (index total : nat) (w : world) :
  exists t w' evs,
    process_article a index total w = (Ok (article_record a t), w') /\
    extends w w' (processing_status index total :: evs) /\
    filter is_milestone evs = [].
Proof.
  destruct (process_article_run a index total w)
    as [(_ & Hrun) | (_ & t & w1 & Hext & Hrun)].
  - exists "", (shown (processing_status index total) w), [].
    split; [exact Hrun|]. split; [apply extends_shown | reflexivity].
  - destruct (extract_article_text_extends (dict_get a "link" "")
                (shown (extracting_status index)
                   (shown (processing_status index total) w)))
      as (t' & w1' & evs & Hext' & Hx & Hm).
    rewrite Hext in Hext'. injection Hext' as <- <-.
    exists t, (shown (Sleep (1 # 2)) w1),
      ([extracting_status index] ++ evs ++ [Sleep (1 # 2)]).
    split; [exact Hrun|]. split.
    + change (processing_status index total :: [extracting_status index]
                ++ evs ++ [Sleep (1 # 2)])
        with ([processing_status index total]
                ++ [extracting_status index] ++ evs ++ [Sleep (1 # 2)]).
      eapply extends_trans; [apply extends_shown|].
      eapply extends_trans; [apply extends_shown|].
      eapply extends_trans; [exact Hx | apply extends_shown].
    + rewrite !filter_app, Hm. reflexivity.
Qed.

Lemma raw_text_nonempty (t : string) :
  PyStr.nonempty (if PyStr.nonempty t then t else failure_text) = true.
Proof. destruct (PyStr.nonempty t) eqn:H; [exact H | reflexivity]. Qed.

Lemma prefix_app (p s : string) : String.prefix p (p ++ s) = true.
Proof.
  induction p as [| c p IH]; simpl; [now destruct s|].
  destruct (Ascii.ascii_dec c c); [exact IH | congruence].
Qed.

Lemma processing_status_milestone (index total : nat) :
  is_milestone (processing_status index total) = true.
Proof. apply prefix_app. Qed.

Lemma filter_processing_status (index total : nat) :
  filter is_milestone [processing_status index total]
  = [processing_status index total].
Proof.
  rewrite filter_cons_True; [reflexivity|].
  now rewrite processing_status_milestone.
Qed.

(** The loop never raises.  It appends one record per article, in order,
    and the text of each record; on the page, its milestones are, for each
    article in turn, the status line of the article and then the progress
    update. *)
Lemma process_loop_run (articles : list article) :
  forall (i total : nat) (results : list article_data) (texts : list string)
         (w : world),
  exists rs w' evs,
    process_loop articles i total results texts w
    = (Ok (results ++ rs, texts ++ map raw_of rs), w') /\
    Forall2 record_of articles rs /\
    extends w w' evs /\
    filter is_milestone evs = milestones i (length articles) total.
Proof.
  induction articles as [| a rest IH]; intros i total results texts w.
  - exists [], w, []. simpl. rewrite !app_nil_r.
    repeat split; [constructor | apply extends_refl].
  - destruct (process_article_extends a i total w)
      as (t & w1 & evs1 & Hrun & Hx1 & Hm1).
    set (r := article_record a t) in *.
    set (q := int_div (i + 1) total).
    destruct (IH (S i) total (results ++ [r]) (texts ++ [raw_of r])
                (shown (Progress q) w1))
      as (rs & w2 & evs2 & Hloop & Hrec & Hx2 & Hm2).
    exists (r :: rs), w2, ((processing_status i total :: evs1)
                           ++ [Progress q] ++ evs2).
    split; [| split; [| split]].
    + cbn [process_loop]. erewrite bind_ok by exact Hrun.
      change (raw_text r)
        with (Some (if PyStr.nonempty t then t else failure_text)).
      erewrite bind_ok by reflexivity.
      rewrite raw_text_nonempty.
      erewrite bind_ok by apply emit_run.
      fold q. change (if PyStr.nonempty t then t else failure_text)
        with (raw_of r).
      rewrite Hloop. cbn [map]. now rewrite <- !app_assoc.
    + constructor; [now exists t | exact Hrec].
    + eapply extends_trans; [exact Hx1|].
      eapply extends_trans; [apply extends_shown | exact Hx2].
    + change (processing_status i total :: evs1)
        with ([processing_status i total] ++ evs1).
      rewrite !filter_app, filter_processing_status, Hm1, Hm2.
      reflexivity.
Qed.

(** *** data.py: the orchestrator *)


(** A run of the orchestrator over a non-empty headline list. *)
Lemma analyze_run (ticker : string) (n : nat) (w w1 : world)
    (news : list article) :
  get_stock_news ticker n w = (Ok news, w1) -> news <> [] ->
  exists rs w2 evs,
    let df := map del_raw_text rs in
    analyze_stock_news_sentiment ticker n w
    = (Ok (series_mean (map full_text_polarity df),
           series_mean (map full_text_subjectivity df),
           overall_label (series_mean (map full_text_polarity df)),
           df, calculate_combined_sentiment (map raw_of rs)), w2) /\
    Forall2 record_of news rs /\
    extends w1 w2 evs /\
    filter is_milestone evs = milestones 0 (length news) (length news).
Proof.
  intros Hnews Hne.
  destruct (process_loop_run news 0 (length news) [] []
              (shown StEmpty (shown (ProgressNew 0) w1)))
    as (rs & w2 & evs & Hloop & Hrec & Hx & Hm).
  exists rs, (shown StatusEmpty (shown ProgressEmpty w2)),
    ([ProgressNew 0; StEmpty] ++ evs ++ [ProgressEmpty; StatusEmpty]).
  cbv zeta. split; [| split; [exact Hrec | split]].
  - unfold analyze_stock_news_sentiment.
    erewrite bind_ok by exact Hnews.
    destruct news as [| a news]; [congruence|]. cbn [is_empty].
    erewrite bind_ok by apply emit_run.
    erewrite bind_ok by apply emit_run.
    erewrite bind_ok by exact Hloop.
    erewrite bind_ok by apply emit_run.
    erewrite bind_ok by apply emit_run.
    cbn [fst snd app].
    inversion Hrec as [| ? r ? rs' _ _ ]; subst. reflexivity.
  - change [ProgressNew 0; StEmpty] with ([ProgressNew 0] ++ [StEmpty]).
    change [ProgressEmpty; StatusEmpty]
      with ([ProgressEmpty] ++ [StatusEmpty]).
    rewrite <- !app_assoc.
    eapply extends_trans; [apply extends_shown|].
    eapply extends_trans; [apply extends_shown|].
    eapply extends_trans; [exact Hx|].
    eapply extends_trans; apply extends_shown.
  - rewrite !filter_app, Hm. simpl. now rewrite app_nil_r.
Qed.

Lemma analyze_empty_run (ticker : string) (n : nat) (w w1 : world) :
  get_stock_news ticker n w = (Ok [], w1) ->
  analyze_stock_news_sentiment ticker n w = (Ok no_news, w1).
Proof.
  intros Hnews. unfold analyze_stock_news_sentiment.
  erewrite bind_ok by exact Hnews. reflexivity.
Qed.

(** C7. When the news source returns no headline,
    [analyze_stock_news_sentiment] returns at once the neutral result:
    averages [0.0], label Neutral, no rows, no combined sentiment.  The
    state is the one the news source left: no article was processed, no
    page was requested and no milestone was shown. *)
Theorem analyze_no_news (ticker : string) (n : nat) (w w1 : world)
    (Hnews : get_stock_news ticker n w = (Ok [], w1)) :
  analyze_stock_news_sentiment ticker n w
  = (Ok (0%Q, 0%Q, "Neutral", [], None), w1) /\
  http_calls w1 = http_calls w /\
  filter is_milestone (ui w1) = filter is_milestone (ui w).
Proof.
  split.
  - now apply analyze_empty_run.
  - destruct (get_stock_news_run ticker n w)
      as (news & w1' & evs & Hrun & _ & Hh & _ & Hu & Hm & _).
    rewrite Hnews in Hrun. injection Hrun as <- <-.
    split; [exact Hh|]. rewrite Hu, filter_app, Hm. apply app_nil_r.
Qed.

(** *** The progress bar *)






(** *** The averages *)


(** *** data.py: the saved results *)

Lemma get_stock_news_value (ticker : string) (n : nat) (w1 w2 : world) :
  news_calls w1 = news_calls w2 ->
  fst (get_stock_news ticker n w1) = fst (get_stock_news ticker n w2).
Proof.
  intros Hk. unfold get_stock_news, try_except, bind, Search_news.
  rewrite Hk. destruct (yf_search (news_calls w2) ticker n) as [news | e];
    [|reflexivity].
  simpl. now destruct (negb (is_empty news) && _).
Qed.

(** The orchestrator never raises; it queries the news source once and
    leaves the session alone.  Its result has no rows exactly when the
    news source returned no headline, and is then [no_news]. *)
Lemma analyze_total (ticker : string) (n : nat) (w : world) :
  exists news r w',
    fst (get_stock_news ticker n w) = Ok news /\
    analyze_stock_news_sentiment ticker n w = (Ok r, w') /\
    news_calls w' = S (news_calls w) /\ session w' = session w /\
    (news = [] -> r = no_news) /\ (news <> [] -> rows r <> []).
Proof.
  destruct (get_stock_news_run ticker n w)
    as (news & w1 & evs & Hnews & Hn & _ & Hs & _).
  exists news. rewrite Hnews. destruct news as [| a news].
  - exists no_news, w1.
    split; [reflexivity|]. split; [now apply analyze_empty_run|].
    split; [exact Hn|]. split; [exact Hs|]. split; congruence.
  - destruct (analyze_run ticker n w w1 (a :: news) Hnews)
      as (rs & w2 & evs2 & Hrun & Hrec & (Hn2 & Hs2 & _) & _); [congruence|].
    cbv zeta in Hrun. do 2 eexists.
    split; [reflexivity|]. split; [exact Hrun|].
    split; [congruence|]. split; [congruence|]. split; [congruence|].
    intros _. inversion Hrec; subst. discriminate.
Qed.

Lemma cached_save_results (ticker : string) (r : analysis)
    (ss : session_state) :
  cached ticker (save_results ticker r ss) = true /\
  saved_results (save_results ticker r ss) = r.
Proof.
  destruct r as [[[[? ?] ?] ?] ?]. unfold cached. simpl.
  now rewrite String.eqb_refl.
Qed.

(** A call that finds the results saved returns them and does nothing. *)
Lemma perform_hit (ticker : string) (w : world) :
  PyStr.nonempty ticker = true -> cached ticker (session w) = true ->
  perform_stock_news_analysis ticker w
  = (Ok (Some (saved_results (session w))), w).
Proof.
  intros Ht Hc. unfold perform_stock_news_analysis. rewrite Ht. cbn [negb].
  erewrite bind_ok by reflexivity. now rewrite Hc.
Qed.

(** A call that does not find them runs the orchestrator, saves its
    result, and returns it unless it has no rows. *)
Lemma perform_miss (ticker : string) (w : world) :
  PyStr.nonempty ticker = true -> cached ticker (session w) = false ->
  exists news r w1,
    fst (get_stock_news ticker (default 3%nat (ss_num_articles (session w))) w)
    = Ok news /\
    (news = [] -> r = no_news) /\ (news <> [] -> rows r <> []) /\
    news_calls w1 = S (news_calls w) /\
    let w2 := with_session (save_results ticker r (session w)) w1 in
    perform_stock_news_analysis ticker w
    = if is_empty (rows r)
      then (Ok None, shown (no_news_warning ticker) w2)
      else (Ok (Some r), w2).
Proof.
  intros Ht Hc.
  set (n := default 3%nat (ss_num_articles (session w))).
  destruct (analyze_total ticker n (shown (spinner ticker) w))
    as (news & r & w1 & Hnews & Hrun & Hn & Hs & Hnil & Hcons).
  rewrite (get_stock_news_value ticker n _ w) in Hnews by reflexivity.
  exists news, r, w1. cbv zeta.
  split; [exact Hnews|]. split; [exact Hnil|]. split; [exact Hcons|].
  split; [exact Hn|].
  unfold perform_stock_news_analysis. rewrite Ht. cbn [negb].
  erewrite bind_ok by reflexivity. rewrite Hc.
  erewrite bind_ok by apply emit_run.
  erewrite bind_ok by reflexivity.
  erewrite bind_ok by exact Hrun.
  erewrite bind_ok by reflexivity.
  erewrite bind_ok by reflexivity.
  rewrite Hs. cbn [session shown].
  fold (rows r). destruct (is_empty (rows r)).
  - erewrite bind_ok by apply emit_run. reflexivity.
  - reflexivity.
Qed.

Lemma nonempty_true (s : string) : s <> "" -> PyStr.nonempty s = true.
Proof. destruct s; simpl; congruence. Qed.

(** C2. Two calls of [perform_stock_news_analysis] with the same non-empty
    ticker, the first of which does not find results saved: the first call
    queries the news source once and sets the flag; the second call
    returns the saved results and changes nothing, so that the news
    source has been queried exactly once in all.  What the second call
    returns is what the first call returned, when it returned a result. *)
Theorem perform_twice_queries_once (ticker : string) (w : world)
    (Hticker : ticker <> "")
    (Hmiss : cached ticker (session w) = false) :
  exists r1 w1,
    perform_stock_news_analysis ticker w = (Ok r1, w1) /\
    ss_analysis_performed (session w1) = true /\
    news_calls w1 = S (news_calls w) /\
    perform_stock_news_analysis ticker w1
    = (Ok (Some (saved_results (session w1))), w1) /\
    (forall r, r1 = Some r -> saved_results (session w1) = r).
Proof.
  pose proof (nonempty_true ticker Hticker) as Ht.
  destruct (perform_miss ticker w Ht Hmiss)
    as (news & r & w1 & _ & _ & _ & Hn & Hrun).
  cbv zeta in Hrun.
  destruct (cached_save_results ticker r (session w)) as (Hc & Hsaved).
  destruct (is_empty (rows r)); do 2 eexists; (split; [exact Hrun|]).
  - split; [now destruct r as [[[[? ?] ?] ?] ?]|]. split; [exact Hn|].
    split; [now apply perform_hit | discriminate].
  - split; [now destruct r as [[[[? ?] ?] ?] ?]|]. split; [exact Hn|].
    split; [now apply perform_hit|].
    intros r' [= <-]. exact Hsaved.
Qed.

(** C10. [perform_stock_news_analysis] returns [None] on the empty
    ticker.  It also returns [None] when, for a non-empty ticker without
    saved results, the news source has no headline; the neutral result has
    by then been saved under that ticker and the flag set, so that the next
    call with the same ticker finds it and returns the neutral result
    itself, not [None]. *)
Theorem perform_none_then_saved (ticker : string) (w : world)
    (Hticker : ticker <> "")
    (Hmiss : cached ticker (session w) = false)
    (Hnone : fst (get_stock_news ticker
                    (default 3%nat (ss_num_articles (session w))) w) = Ok []) :
  perform_stock_news_analysis "" w = (Ok None, shown ticker_warning w) /\
  exists w1,
    perform_stock_news_analysis ticker w = (Ok None, w1) /\
    ss_analysis_performed (session w1) = true /\
    ss_ticker (session w1) = ticker /\
    saved_results (session w1) = no_news /\
    perform_stock_news_analysis ticker w1 = (Ok (Some no_news), w1).
Proof.
  split; [reflexivity|].
  pose proof (nonempty_true ticker Hticker) as Ht.
  destruct (perform_miss ticker w Ht Hmiss)
    as (news & r & w1 & Hnews & Hnil & _ & _ & Hrun).
  cbv zeta in Hrun.
  rewrite Hnone in Hnews. injection Hnews as <-.
  rewrite (Hnil eq_refl) in Hrun. cbn [rows no_news is_empty fst snd] in Hrun.
  eexists. split; [exact Hrun|].
  split; [reflexivity|]. split; [reflexivity|]. split; [reflexivity|].
  rewrite perform_hit; [reflexivity | exact Ht |].
  apply (cached_save_results ticker no_news).
Qed.

(** *** scraper.py: the text of a page *)

Example words_example : words "  two   words
 here " = ["two"; "words"; "here"].
Proof. reflexivity. Qed.

Example normalise_example :
  PyStr.strip (PyStr.re_sub_spaces "  two   words
 here ") = "two words here".
Proof. reflexivity. Qed.

Example replace_example : PyStr.replace "ab" "-" "aababcab" = "a--c-".
Proof. reflexivity. Qed.

Lemma append_empty_r (s : string) : (s ++ "")%string = s.
Proof.
  induction s as [| c s IH]; [reflexivity|].
  change (String c (s ++ "") = String c s). congruence.
Qed.

Lemma append_assoc (s1 s2 s3 : string) :
  ((s1 ++ s2) ++ s3)%string = (s1 ++ s2 ++ s3)%string.
Proof.
  induction s1 as [| c s1 IH]; [reflexivity|].
  change (String c ((s1 ++ s2) ++ s3) = String c (s1 ++ s2 ++ s3)).
  congruence.
Qed.

Lemma nonempty_append (s1 s2 : string) :
  PyStr.nonempty s1 = true -> PyStr.nonempty (s1 ++ s2) = true.
Proof. now destruct s1. Qed.

Lemma join_cons (w : string) (ws : list string) :
  PyStr.join " " (w :: ws) = (w ++ after_word ws)%string.
Proof. destruct ws; simpl; [now rewrite append_empty_r | reflexivity]. Qed.

Lemma split_ws_nonempty (s : string) :
  Forall (fun w => PyStr.nonempty w = true) (snd (split_ws s)).
Proof.
  induction s as [| c s IH]; simpl; [constructor|].
  destruct (split_ws s) as [w ws]. simpl in IH.
  destruct (PyStr.isspace c); simpl; [|exact IH].
  destruct (PyStr.nonempty w) eqn:Hw; [constructor|]; assumption.
Qed.

Lemma join_nonempty (w : string) (ws : list string) :
  PyStr.nonempty w = true -> PyStr.nonempty (PyStr.join " " (w :: ws)) = true.
Proof. intros Hw. rewrite join_cons. now apply nonempty_append. Qed.

(** Collapsing and trimming on the right, read word by word. *)
Lemma rstrip_sub_spaces (s : string) :
  PyStr.rstrip (PyStr.sub_spaces false s)
  = (fst (split_ws s) ++ after_word (snd (split_ws s)))%string /\
  PyStr.rstrip (PyStr.sub_spaces true s) = PyStr.join " " (words s).
Proof.
  unfold words. induction s as [| c s [IHf IHt]]; [split; reflexivity|].
  pose proof (split_ws_nonempty s) as Hne.
  cbn [split_ws PyStr.sub_spaces].
  destruct (split_ws s) as [w ws]. cbn [fst snd] in *.
  destruct (PyStr.isspace c) eqn:Hc; cbn [fst snd PyStr.nonempty].
  - assert (Ht : PyStr.rstrip (PyStr.sub_spaces true s)
                 = PyStr.join " " (if PyStr.nonempty w then w :: ws else ws))
      by exact IHt.
    split; [|exact Ht].
    cbn [PyStr.rstrip]. rewrite Ht.
    change (PyStr.isspace " ") with true. cbn [andb].
    destruct (PyStr.nonempty w) eqn:Hw.
    + rewrite join_nonempty by exact Hw. reflexivity.
    + destruct ws as [| w' ws]; [reflexivity|].
      rewrite join_nonempty by now inversion Hne. reflexivity.
  - cbn [PyStr.rstrip]. rewrite Hc, IHf. cbn [andb].
    split; [reflexivity | now rewrite join_cons].
Qed.

Lemma lstrip_sub_spaces_true (s : string) :
  PyStr.lstrip (PyStr.sub_spaces true s) = PyStr.sub_spaces true s.
Proof.
  induction s as [| c s IH]; [reflexivity|]. cbn [PyStr.sub_spaces].
  destruct (PyStr.isspace c) eqn:Hc; [exact IH|].
  cbn [PyStr.lstrip]. now rewrite Hc.
Qed.

Lemma lstrip_sub_spaces (s : string) :
  PyStr.lstrip (PyStr.sub_spaces false s) = PyStr.sub_spaces true s.
Proof.
  destruct s as [| c s]; [reflexivity|]. cbn [PyStr.sub_spaces].
  destruct (PyStr.isspace c) eqn:Hc; cbn [PyStr.lstrip].
  - change (PyStr.isspace " ") with true. cbn iota.
    apply lstrip_sub_spaces_true.
  - now rewrite Hc.
Qed.

(** [re.sub(r'\s+', ' ', s).strip()] leaves the words of [s], one space
    between two of them. *)
Lemma strip_re_sub_spaces (s : string) :
  PyStr.strip (PyStr.re_sub_spaces s) = PyStr.join " " (words s).
Proof.
  unfold PyStr.strip, PyStr.re_sub_spaces.
  rewrite lstrip_sub_spaces. apply rstrip_sub_spaces.
Qed.

Lemma split_ws_app_space (a b : string) :
  split_ws (a ++ " " ++ b)
  = (fst (split_ws a), snd (split_ws a) ++ words b).
Proof.
  induction a as [| c a IH].
  - unfold words. change (("" ++ " " ++ b)%string) with (String " " b).
    cbn [split_ws]. change (PyStr.isspace " ") with true.
    destruct (split_ws b) as [w ws]. reflexivity.
  - change ((String c a ++ " " ++ b)%string)
      with (String c (a ++ " " ++ b)).
    cbn [split_ws]. rewrite IH. destruct (split_ws a) as [w ws].
    cbn [fst snd].
    destruct (PyStr.isspace c); [|reflexivity].
    now destruct (PyStr.nonempty w).
Qed.

Lemma words_app_space (a b : string) :
  words (a ++ " " ++ b) = words a ++ words b.
Proof.
  unfold words at 1 2. rewrite split_ws_app_space.
  destruct (split_ws a) as [w ws]. cbn [fst snd].
  now destruct (PyStr.nonempty w).
Qed.

Lemma words_join (l : list string) :
  words (PyStr.join " " l) = flat_map words l.
Proof.
  induction l as [| x l IH]; [reflexivity|].
  destruct l as [| y l].
  - simpl. now rewrite app_nil_r.
  - change (PyStr.join " " (x :: y :: l))
      with ((x ++ " " ++ PyStr.join " " (y :: l))%string).
    rewrite words_app_space, IH. reflexivity.
Qed.

Lemma words_lstrip (s : string) : words (PyStr.lstrip s) = words s.
Proof.
  induction s as [| c s IH]; [reflexivity|]. cbn [PyStr.lstrip].
  destruct (PyStr.isspace c) eqn:Hc; [|reflexivity].
  rewrite IH. unfold words. cbn [split_ws]. rewrite Hc.
  now destruct (split_ws s).
Qed.

Lemma split_ws_rstrip (s : string) : split_ws (PyStr.rstrip s) = split_ws s.
Proof.
  induction s as [| c s IH]; [reflexivity|]. cbn [PyStr.rstrip].
  destruct (PyStr.isspace c) eqn:Hc; cbn [andb].
  - destruct (PyStr.rstrip s) as [| d r] eqn:Hr; cbn [PyStr.nonempty negb].
    + cbn [split_ws]. rewrite Hc, <- IH. reflexivity.
    + cbn [split_ws] in *. rewrite Hc, <- IH. reflexivity.
  - cbn [split_ws]. now rewrite Hc, IH.
Qed.

Lemma words_strip (s : string) : words (PyStr.strip s) = words s.
Proof.
  unfold PyStr.strip. rewrite <- (words_lstrip s).
  unfold words. now rewrite split_ws_rstrip.
Qed.

(** Stripping each paragraph, joining them with a space, collapsing and
    trimming is taking the words of the paragraphs. *)
Lemma normalise_paragraphs (texts : list string) :
  PyStr.strip (PyStr.re_sub_spaces (PyStr.join " " (map PyStr.strip texts)))
  = PyStr.join " " (flat_map words texts).
Proof.
  rewrite strip_re_sub_spaces, words_join. f_equal.
  induction texts as [| t texts IH]; [reflexivity|].
  cbn [map flat_map]. now rewrite words_strip, IH.
Qed.

Lemma concat_cons (x : string) (l : list string) :
  String.concat "" (x :: l) = (x ++ String.concat "" l)%string.
Proof. destruct l; simpl; [now rewrite append_empty_r | reflexivity]. Qed.

Lemma concat_app (l1 l2 : list string) :
  String.concat "" (l1 ++ l2)
  = (String.concat "" l1 ++ String.concat "" l2)%string.
Proof.
  induction l1 as [| x l1 IH]; [reflexivity|].
  change ((x :: l1) ++ l2) with (x :: (l1 ++ l2)).
  now rewrite !concat_cons, IH, append_assoc.
Qed.

Section Dropped.

Variable dropped : list string.

Lemma get_text_pruned_children (cs : list Soup.node) :
  Forall (fun n => String.concat "" (map Soup.get_text (Soup.prune dropped n))
                   = visible_text dropped n) cs ->
  String.concat "" (map Soup.get_text (flat_map (Soup.prune dropped) cs))
  = String.concat "" (map (visible_text dropped) cs).
Proof.
  induction 1 as [| c cs Hc _ IH]; [reflexivity|].
  cbn [flat_map map]. rewrite map_app, concat_app, concat_cons, Hc, IH.
  reflexivity.
Qed.

(** The text of what is left of a node is its text outside the dropped
    elements. *)
Lemma get_text_prune (n : Soup.node) :
  String.concat "" (map Soup.get_text (Soup.prune dropped n))
  = visible_text dropped n.
Proof.
  induction n as [s | s | nm cs IH] using node_ind_all;
    [reflexivity | reflexivity |].
  cbn [Soup.prune visible_text].
  destruct (Soup.named dropped nm); [reflexivity|].
  cbn [map String.concat Soup.get_text].
  now apply get_text_pruned_children.
Qed.

Lemma find_all_pruned_children (cs : list Soup.node) :
  Forall (fun n => map Soup.get_text
                     (flat_map (Soup.find_all_at ["p"]) (Soup.prune dropped n))
                   = paragraphs_at dropped n) cs ->
  map Soup.get_text
    (flat_map (Soup.find_all_at ["p"]) (flat_map (Soup.prune dropped) cs))
  = flat_map (paragraphs_at dropped) cs.
Proof.
  induction 1 as [| c cs Hc _ IH]; [reflexivity|].
  cbn [flat_map]. now rewrite flat_map_app, map_app, Hc, IH.
Qed.

(** The paragraphs found once the dropped elements are out are the
    paragraphs outside the dropped elements. *)
Lemma find_all_prune (n : Soup.node) :
  map Soup.get_text (flat_map (Soup.find_all_at ["p"]) (Soup.prune dropped n))
  = paragraphs_at dropped n.
Proof.
  induction n as [s | s | nm cs IH] using node_ind_all;
    [reflexivity | reflexivity |].
  cbn [Soup.prune paragraphs_at].
  destruct (Soup.named dropped nm) eqn:Hnm; [reflexivity|].
  cbn [flat_map Soup.find_all_at]. rewrite app_nil_r, map_app.
  f_equal.
  - destruct (Soup.named ["p"] nm); [|reflexivity].
    cbn [map Soup.get_text visible_text]. rewrite Hnm. f_equal.
    apply get_text_pruned_children.
    clear. induction cs as [| c cs IHcs]; constructor;
      [apply get_text_prune | exact IHcs].
  - now apply find_all_pruned_children.
Qed.

Lemma find_all_extract_all (soup : list Soup.node) :
  map Soup.get_text (Soup.find_all ["p"] (Soup.extract_all dropped soup))
  = flat_map (paragraphs_at dropped) soup.
Proof.
  unfold Soup.find_all, Soup.extract_all.
  apply find_all_pruned_children.
  induction soup as [| c cs IHcs]; constructor;
    [apply find_all_prune | exact IHcs].
Qed.

End Dropped.

(** The page text of the code is the page text of the specification, with
    the five elements of [dropped_tags] dropped. *)
Lemma page_text_spec (soup : list Soup.node) :
  page_text soup = spec_page_text dropped_tags soup.
Proof.
  unfold page_text, spec_page_text. f_equal.
  rewrite <- (map_map Soup.get_text PyStr.strip).
  now rewrite normalise_paragraphs, find_all_extract_all.
Qed.

(** C4 (amended). On a 200 response whose body parses,
    [extract_article_text] drops the elements named script, style, header,
    footer and nav, and only those: an aside element is kept.  It then
    returns the words of the remaining paragraph elements, in document
    order, with one space between two words and none at either end, from
    which the boilerplate fragment is removed. *)
Theorem extract_article_text_page (url : string) (w : world) (r : response)
    (soup : list Soup.node)
    (Hget : requests_get (http_calls w) url = Ok r)
    (H200 : status_code r = 200%Z)
    (Hparse : html_parser (text r) = Ok soup) :
  extract_article_text url w
  = (Ok (spec_page_text ["script"; "style"; "header"; "footer"; "nav"] soup),
     requested w).
Proof.
  destruct (extract_article_text_run url w)
    as [(e & Hget' & _) | [(r' & Hget' & Hst & _)
       | [(r' & e & Hget' & _ & Hparse' & _)
       | (r' & soup' & Hget' & _ & Hparse' & Hrun)]]];
    rewrite Hget in Hget'; try discriminate;
    injection Hget' as <-; try congruence.
  rewrite Hparse in Hparse'. injection Hparse' as <-.
  rewrite Hrun, page_text_spec. reflexivity.
Qed.

(** *** The combined corpus *)

(** X4. Every record carries a non-empty text, so that over a non-empty
    headline list the combined sentiment is always present. *)
Lemma combined_sentiment_present (ticker : string) (n : nat) (w w1 : world)
    (news : list article) :
  get_stock_news ticker n w = (Ok news, w1) -> news <> [] ->
  exists r w2 c,
    analyze_stock_news_sentiment ticker n w = (Ok r, w2) /\ snd r = Some c.
Proof.
  intros Hnews Hne.
  destruct (analyze_run ticker n w w1 news Hnews Hne)
    as (rs & w2 & evs & Hrun & Hrec & _ & _).
  cbv zeta in Hrun. rewrite Hrun. cbn [snd].
  destruct Hrec as [| a r news rs (t & ->) _]; [congruence|].
  unfold calculate_combined_sentiment. cbn [map].
  change (raw_of (article_record a t))
    with (if PyStr.nonempty t then t else failure_text).
  rewrite join_nonempty by apply raw_text_nonempty. cbn [negb].
  destruct (analyze_sentiment _) as [[[? ?] ?] ?]. eauto.
Qed.

(** ** Further properties *)

(** *** config.py *)

Lemma init_key_lookup (key : string) (v : ss_value) (m : gmap string ss_value)
    (k : string) :
  init_key key v m !! k
  = match m !! k with
    | Some x => Some x
    | None => if decide (key = k) then Some v else None
    end.
Proof.
  unfold init_key. destruct (m !! key) eqn:Hkey.
  - destruct (m !! k) eqn:Hk; [reflexivity|].
    case_decide; [congruence | reflexivity].
  - rewrite lookup_insert. case_decide.
    + subst. now rewrite Hkey.
    + now destruct (m !! k).
Qed.

Lemma initialize_session_state_lookup (m : gmap string ss_value) (k : string) :
  initialize_session_state m !! k
  = match m !! k with
    | Some x => Some x
    | None => session_defaults !! k
    end.
Proof.
  unfold initialize_session_state, session_defaults. cbv zeta.
  rewrite !init_key_lookup, !lookup_insert, lookup_singleton.
  destruct (m !! k); [reflexivity|].
  repeat case_decide; subst; try reflexivity; discriminate.
Qed.

(** X1. [initialize_session_state] completes the session with the default
    values: a key that is set keeps its value, a key that is not gets its
    default.  Running it again changes nothing, and on the empty session it
    gives the initial session of the application. *)
Theorem initialize_session_state_defaults (m : gmap string ss_value) :
  initialize_session_state m = m ∪ session_defaults /\
  initialize_session_state (initialize_session_state m)
  = initialize_session_state m /\
  (forall k v, m !! k = Some v -> initialize_session_state m !! k = Some v) /\
  (forall k, m !! k = None ->
     initialize_session_state m !! k = session_defaults !! k) /\
  session_record (initialize_session_state ∅) = Some initial_session.
Proof.
  split; [| split; [| split; [| split]]].
  - apply map_eq. intros k.
    rewrite initialize_session_state_lookup, lookup_union.
    destruct (m !! k), (session_defaults !! k); reflexivity.
  - apply map_eq. intros k. rewrite !initialize_session_state_lookup.
    destruct (m !! k); [reflexivity|].
    now destruct (session_defaults !! k).
  - intros k v Hk. now rewrite initialize_session_state_lookup, Hk.
  - intros k Hk. now rewrite initialize_session_state_lookup, Hk.
  - reflexivity.
Qed.

(** *** data.py: the news source, again *)

(** X2. [get_stock_news] never raises and asks the provider once.  When the
    provider answers, the result is the first [num_articles] items of the
    answer, in the provider's order; when the provider raises, the result
    is empty and the error is shown with the ticker and the message.  No
    page is requested and the session is not touched. *)
Theorem get_stock_news_fails_soft (ticker : string) (n : nat) (w : world) :
  exists news w',
    get_stock_news ticker n w = (Ok news, w') /\
    (length news <= n)%nat /\
    news_calls w' = S (news_calls w) /\ http_calls w' = http_calls w /\
    session w' = session w /\
    (forall l, yf_search (news_calls w) ticker n = Ok l ->
       news = firstn n l /\ ui w' = ui w ++ [Print l]) /\
    (forall e, yf_search (news_calls w) ticker n = Raise e ->
       news = [] /\
       ui w' = ui w ++ [StError ("Error fetching news for " ++ ticker
                                 ++ ": " ++ exn_str e)]).
Proof.
  unfold get_stock_news, try_except, bind, Search_news.
  destruct (yf_search (news_calls w) ticker n) as [l | e]; simpl.
  - destruct l as [| a l]; simpl.
    + eexists [], _. split; [reflexivity|]. split; [simpl; lia|].
      do 3 (split; [reflexivity|]). split.
      * intros l' [= <-]. split; [now destruct n | reflexivity].
      * intros e [=].
    + eexists _, _. split; [reflexivity|]. split.
      { change (length (firstn n (a :: l)) <= n)%nat.
        rewrite length_firstn. lia. }
      do 3 (split; [reflexivity|]). split.
      * intros l' [= <-]. split; reflexivity.
      * intros e [=].
  - eexists [], _. split; [reflexivity|]. split; [simpl; lia|].
    do 3 (split; [reflexivity|]). split.
    + intros l' [=].
    + intros e' [= <-]. split; reflexivity.
Qed.

(** *** sentiment.py: the combined sentiment *)

Lemma join_empty_iff (l : list string) :
  PyStr.join " " l = "" <-> l = [] \/ l = [""].
Proof.
  split.
  - destruct l as [| x [| y l]]; simpl; auto.
    + intros ->. auto.
    + destruct x; discriminate.
  - intros [-> | ->]; reflexivity.
Qed.

(** X3. [calculate_combined_sentiment] returns [None] exactly when the
    joined text is empty, that is for no text at all and for the empty text
    alone; two empty texts already give a space, which is analysed.  What
    it returns otherwise is the sentiment of the texts joined by spaces. *)
Theorem calculate_combined_sentiment_none (texts : list string) :
  (calculate_combined_sentiment texts = None
   <-> texts = [] \/ texts = [""]) /\
  (forall c, calculate_combined_sentiment texts = Some c ->
     (polarity c, subjectivity c, sentiment c, emoji c)
     = analyze_sentiment (PyStr.join " " texts)) /\
  calculate_combined_sentiment [""; ""] <> None.
Proof.
  unfold calculate_combined_sentiment. split; [| split].
  - rewrite <- join_empty_iff.
    destruct (PyStr.join " " texts) eqn:Hj; simpl.
    + split; auto.
    + destruct (analyze_sentiment _) as [[[? ?] ?] ?].
      split; discriminate.
  - intros c. destruct (PyStr.nonempty _); simpl; [|discriminate].
    destruct (analyze_sentiment _) as [[[? ?] ?] ?].
    now intros [= <-].
  - simpl. destruct (analyze_sentiment _) as [[[? ?] ?] ?]. discriminate.
Qed.

(** *** data.py: requests and pauses *)

Lemma sleeps_app (evs1 evs2 : list ui_event) :
  sleeps (evs1 ++ evs2) = (sleeps evs1 + sleeps evs2)%nat.
Proof.
  induction evs1 as [| e evs1 IH]; [reflexivity|].
  destruct e; simpl; rewrite IH; reflexivity.
Qed.

Lemma extract_article_text_frame (url : string) (w : world) :
  exists s w' evs,
    extract_article_text url w = (Ok s, w') /\
    extends w w' evs /\ http_calls w' = S (http_calls w) /\
    sleeps evs = 0%nat.
Proof.
  destruct (extract_article_text_run url w)
    as [(e & _ & Hrun) | [(r & _ & _ & Hrun)
       | [(r & e & _ & _ & _ & Hrun) | (r & soup & _ & _ & _ & Hrun)]]];
    rewrite Hrun.
  - eexists _, _, [_]. repeat split.
  - eexists _, _, []. repeat split. simpl. now rewrite app_nil_r.
  - eexists _, _, [_]. repeat split.
  - eexists _, _, []. repeat split. simpl. now rewrite app_nil_r.
Qed.

Lemma process_article_accounting (a : article) (index total : nat)
    (w : world) :
  exists t w' evs,
    process_article a index total w = (Ok (article_record a t), w') /\
    extends w w' evs /\
    http_calls w' = (http_calls w + if linked a then 1 else 0)%nat /\
    sleeps evs = (if linked a then 1 else 0)%nat /\
    (linked a = false -> evs = [processing_status index total]) /\
    (linked a = true -> exists evs0, evs = evs0 ++ [Sleep (1 # 2)]).
Proof.
  unfold linked.
  destruct (process_article_run a index total w)
    as [(Hurl & Hrun) | (Hurl & t & w1 & Hext & Hrun)]; rewrite Hurl.
  - exists "", (shown (processing_status index total) w),
      [processing_status index total].
    split; [exact Hrun|]. split; [apply extends_shown|].
    split; [simpl; lia|]. split; [reflexivity|].
    split; [reflexivity | discriminate].
  - destruct (extract_article_text_frame (dict_get a "link" "")
                (shown (extracting_status index)
                   (shown (processing_status index total) w)))
      as (t' & w1' & evs & Hext' & Hx & Hh & Hs).
    rewrite Hext in Hext'. injection Hext' as <- <-.
    exists t, (shown (Sleep (1 # 2)) w1),
      (([processing_status index total] ++ [extracting_status index] ++ evs)
         ++ [Sleep (1 # 2)]).
    split; [exact Hrun|]. split.
    { rewrite <- !app_assoc.
      eapply extends_trans; [apply extends_shown|].
      eapply extends_trans; [apply extends_shown|].
      eapply extends_trans; [exact Hx | apply extends_shown]. }
    split; [simpl; rewrite Hh; simpl; lia|].
    split; [rewrite !sleeps_app, Hs; reflexivity|].
    split; [discriminate | eauto].
Qed.

(** X5. [process_article] never raises.  It asks for the page only when the
    headline has a non-empty link: there is then exactly one request, and
    the last thing the call does is pause, whether or not the extraction
    gave a text.  Without a link there is no request and no pause: the
    status line is all that is shown. *)
Theorem process_article_requests (a : article) (index total : nat)
    (w : world) :
  exists r w' evs,
    process_article a index total w = (Ok r, w') /\
    ui w' = ui w ++ evs /\
    news_calls w' = news_calls w /\ session w' = session w /\
    (linked a = false ->
       http_calls w' = http_calls w /\ evs = [processing_status index total]) /\
    (linked a = true ->
       http_calls w' = S (http_calls w) /\ sleeps evs = 1%nat /\
       exists evs0, evs = evs0 ++ [Sleep (1 # 2)]).
Proof.
  destruct (process_article_accounting a index total w)
    as (t & w' & evs & Hrun & (Hn & Hs & Hu) & Hh & Hsl & Hno & Hyes).
  exists (article_record a t), w', evs.
  split; [exact Hrun|]. split; [exact Hu|]. split; [exact Hn|].
  split; [exact Hs|]. split; intros Hl; rewrite Hl in *.
  - split; [lia | now apply Hno].
  - split; [lia|]. split; [exact Hsl | now apply Hyes].
Qed.

Lemma process_loop_accounting (articles : list article) :
  forall (i total : nat) (results : list article_data) (texts : list string)
         (w : world),
  exists x w' evs,
    process_loop articles i total results texts w = (Ok x, w') /\
    extends w w' evs /\
    http_calls w' = (http_calls w + count_linked articles)%nat /\
    sleeps evs = count_linked articles.
Proof.
  induction articles as [| a rest IH]; intros i total results texts w.
  - exists (results, texts), w, []. simpl.
    split; [reflexivity|]. split; [apply extends_refl|]. split; [lia|].
    reflexivity.
  - destruct (process_article_accounting a i total w)
      as (t & w1 & evs1 & Hrun & Hx1 & Hh1 & Hs1 & _).
    set (r := article_record a t) in *.
    set (q := int_div (i + 1) total).
    destruct (IH (S i) total (results ++ [r]) (texts ++ [raw_of r])
                (shown (Progress q) w1))
      as (x & w2 & evs2 & Hloop & Hx2 & Hh2 & Hs2).
    exists x, w2, (evs1 ++ [Progress q] ++ evs2).
    split; [| split; [| split]].
    + cbn [process_loop]. erewrite bind_ok by exact Hrun.
      change (raw_text r)
        with (Some (if PyStr.nonempty t then t else failure_text)).
      erewrite bind_ok by reflexivity.
      rewrite raw_text_nonempty.
      erewrite bind_ok by apply emit_run.
      exact Hloop.
    + eapply extends_trans; [exact Hx1|].
      eapply extends_trans; [apply extends_shown | exact Hx2].
    + rewrite Hh2. cbn [http_calls shown count_linked]. rewrite Hh1. lia.
    + rewrite !sleeps_app, Hs1, Hs2. reflexivity.
Qed.

Lemma count_linked_le (news : list article) :
  (count_linked news <= length news)%nat.
Proof.
  induction news as [| a news IH]; simpl; [lia|].
  destruct (linked a); lia.
Qed.

(** X8. A run of [analyze_stock_news_sentiment] requests one page for each
    headline that has a non-empty link, and no other page; it pauses once
    for each such request.  There are therefore at most [num_articles]
    requests in a run. *)
Theorem analyze_requests (ticker : string) (n : nat) (w : world) :
  exists news w1 r w2 evs,
    get_stock_news ticker n w = (Ok news, w1) /\
    analyze_stock_news_sentiment ticker n w = (Ok r, w2) /\
    ui w2 = ui w1 ++ evs /\
    http_calls w2 = (http_calls w + count_linked news)%nat /\
    sleeps evs = count_linked news /\
    (count_linked news <= n)%nat.
Proof.
  destruct (get_stock_news_run ticker n w)
    as (news & w1 & evs0 & Hnews & _ & Hh & _ & _ & _ & Hlen).
  exists news, w1.
  assert (Hle : (count_linked news <= n)%nat)
    by (pose proof (count_linked_le news); lia).
  destruct news as [| a news].
  - exists no_news, w1, [].
    split; [exact Hnews|]. split; [now apply analyze_empty_run|].
    split; [now rewrite app_nil_r|]. split; [simpl; lia|].
    split; [reflexivity | exact Hle].
  - destruct (process_loop_accounting (a :: news) 0 (length (a :: news)) [] []
                (shown StEmpty (shown (ProgressNew 0) w1)))
      as (x & w2 & evs & Hloop & (_ & _ & Hu) & Hh2 & Hs).
    eexists _, (shown StatusEmpty (shown ProgressEmpty w2)),
      ([ProgressNew 0; StEmpty] ++ evs ++ [ProgressEmpty; StatusEmpty]).
    split; [exact Hnews|]. split; [| split; [| split; [| split]]].
    + unfold analyze_stock_news_sentiment.
      erewrite bind_ok by exact Hnews. cbn [is_empty].
      erewrite bind_ok by apply emit_run.
      erewrite bind_ok by apply emit_run.
      erewrite bind_ok by exact Hloop.
      erewrite bind_ok by apply emit_run.
      erewrite bind_ok by apply emit_run.
      reflexivity.
    + cbn [ui shown]. rewrite Hu. cbn [ui shown].
      rewrite <- !app_assoc. reflexivity.
    + cbn [http_calls shown]. rewrite Hh2. cbn [http_calls shown]. lia.
    + rewrite !sleeps_app, Hs. simpl. lia.
    + exact Hle.
Qed.

(** *** data.py: the preview *)

Lemma length_append (s1 s2 : string) :
  String.length (s1 ++ s2) = (String.length s1 + String.length s2)%nat.
Proof.
  induction s1 as [| c s1 IH]; [reflexivity|].
  change (S (String.length (s1 ++ s2))
          = S (String.length s1 + String.length s2)).
  now rewrite IH.
Qed.

Lemma length_take (n : nat) :
  forall s, String.length (PyStr.take n s) = Nat.min n (String.length s).
Proof.
  induction n as [| n IH]; intros [| c s]; simpl; auto.
Qed.

Lemma article_record_preview (a : article) (t : string) :
  let r := article_record a t in
  exists raw,
    raw_text r = Some raw /\ PyStr.nonempty raw = true /\
    (String.length (article_text r) <= 503)%nat /\
    ((String.length raw <= 500)%nat -> article_text r = raw) /\
    ((500 < String.length raw)%nat ->
       article_text r = (PyStr.take 500 raw ++ "...")%string).
Proof.
  cbv zeta. exists (if PyStr.nonempty t then t else failure_text).
  split; [reflexivity|]. split; [apply raw_text_nonempty|].
  cbn [article_text article_record].
  set (raw := if PyStr.nonempty t then t else failure_text).
  destruct (Nat.ltb_spec 500 (String.length raw)) as [Hlong | Hshort].
  - split; [| split; [lia | reflexivity]].
    rewrite length_append, length_take.
    change (String.length "...") with 3%nat. lia.
  - split; [lia|]. split; [reflexivity | lia].
Qed.

(** X6. The preview stored by [process_article] is the text itself when the
    text has at most 500 characters, and else its first 500 characters
    followed by three dots; it has at most 503 characters.  The text is
    never empty: it is the extracted text or the failure string. *)
Theorem process_article_preview (a : article) (index total : nat)
    (w : world) :
  exists r w' raw,
    process_article a index total w = (Ok r, w') /\
    raw_text r = Some raw /\ PyStr.nonempty raw = true /\
    (String.length (article_text r) <= 503)%nat /\
    ((String.length raw <= 500)%nat -> article_text r = raw) /\
    ((500 < String.length raw)%nat ->
       article_text r = (PyStr.take 500 raw ++ "...")%string).
Proof.
  destruct (process_article_extends a index total w)
    as (t & w' & evs & Hrun & _).
  destruct (article_record_preview a t) as (raw & H).
  exists (article_record a t), w', raw. split; [exact Hrun | exact H].
Qed.

Lemma rows_preview (news : list article) (rs : list article_data) :
  Forall2 record_of news rs ->
  Forall (fun row => raw_text row = None /\
                     (String.length (article_text row) <= 503)%nat)
         (map del_raw_text rs).
Proof.
  induction 1 as [| a r news rs (t & ->) _ IH]; cbn [map]; constructor;
    [| exact IH].
  split; [reflexivity|].
  destruct (article_record_preview a t) as (raw & _ & _ & Hlen & _).
  exact Hlen.
Qed.

(** X9. [analyze_stock_news_sentiment] never raises: the lookup of
    [raw_text] in the loop always finds the key.  It queries the news
    source exactly once and does not touch the session.  Its result has
    one row per headline, also when there is no headline; no row has kept
    its raw text, and every preview has at most 503 characters. *)
Theorem analyze_never_raises (ticker : string) (n : nat) (w : world) :
  exists news r w',
    fst (get_stock_news ticker n w) = Ok news /\
    analyze_stock_news_sentiment ticker n w = (Ok r, w') /\
    news_calls w' = S (news_calls w) /\ session w' = session w /\
    length (rows r) = length news /\
    Forall (fun row => raw_text row = None /\
                       (String.length (article_text row) <= 503)%nat)
           (rows r).
Proof.
  destruct (get_stock_news_run ticker n w)
    as (news & w1 & evs & Hnews & Hn & _ & Hs & _).
  exists news. rewrite Hnews. destruct news as [| a news].
  - exists no_news, w1.
    split; [reflexivity|]. split; [now apply analyze_empty_run|].
    split; [exact Hn|]. split; [exact Hs|]. split; [reflexivity|].
    constructor.
  - destruct (analyze_run ticker n w w1 (a :: news) Hnews)
      as (rs & w2 & evs2 & Hrun & Hrec & (Hn2 & Hs2 & _) & _); [congruence|].
    cbv zeta in Hrun. do 2 eexists.
    split; [reflexivity|]. split; [exact Hrun|].
    split; [congruence|]. split; [congruence|].
    cbn [rows fst snd]. split.
    + rewrite length_map. symmetry. eapply Forall2_length. exact Hrec.
    + eapply rows_preview. exact Hrec.
Qed.

(** *** data.py: the saved results, again *)

Lemma perform_miss_state (ticker : string) (w : world) :
  PyStr.nonempty ticker = true -> cached ticker (session w) = false ->
  exists news res r w',
    fst (get_stock_news ticker (default 3%nat (ss_num_articles (session w))) w)
    = Ok news /\
    perform_stock_news_analysis ticker w = (Ok res, w') /\
    news_calls w' = S (news_calls w) /\
    session w' = save_results ticker r (session w) /\
    (news = [] -> res = None) /\ (news <> [] -> res = Some r).
Proof.
  intros Ht Hc.
  destruct (perform_miss ticker w Ht Hc)
    as (news & r & w1 & Hnews & Hnil & Hcons & Hn & Hrun).
  cbv zeta in Hrun. exists news.
  destruct (is_empty (rows r)) eqn:He; do 3 eexists;
    (split; [exact Hnews|]); (split; [exact Hrun|]);
    (split; [exact Hn|]); (split; [reflexivity|]).
  - split; [reflexivity|]. intros Hne. apply Hcons in Hne.
    destruct (rows r); [congruence | discriminate].
  - split; [| reflexivity]. intros ->. rewrite (Hnil eq_refl) in He.
    discriminate.
Qed.

Lemma save_results_fields (ticker : string) (r : analysis)
    (ss : session_state) :
  ss_ticker (save_results ticker r ss) = ticker /\
  ss_analysis_performed (save_results ticker r ss) = true /\
  ss_num_articles (save_results ticker r ss) = ss_num_articles ss.
Proof. now destruct r as [[[[? ?] ?] ?] ?]. Qed.

Lemma cached_other (t1 t2 : string) (ss : session_state) :
  ss_ticker ss = t1 -> t1 <> t2 -> cached t2 ss = false.
Proof.
  intros <- Hne. unfold cached.
  destruct (String.eqb_spec (ss_ticker ss) t2); [congruence | reflexivity].
Qed.

(** X10. The saved results are one slot, keyed by the ticker.  After a
    fresh analysis for one ticker, a call for another ticker does not find
    them: it queries the news source again and overwrites the slot, so
    that the results for the first ticker are gone. *)
Theorem perform_other_ticker (t1 t2 : string) (w : world)
    (Ht1 : t1 <> "") (Ht2 : t2 <> "") (Hne : t1 <> t2)
    (Hmiss : cached t1 (session w) = false) :
  exists r1 w1 r2 w2,
    perform_stock_news_analysis t1 w = (Ok r1, w1) /\
    perform_stock_news_analysis t2 w1 = (Ok r2, w2) /\
    news_calls w2 = S (S (news_calls w)) /\
    ss_ticker (session w2) = t2 /\
    cached t1 (session w2) = false /\
    (forall r, r2 = Some r -> saved_results (session w2) = r).
Proof.
  destruct (perform_miss_state t1 w (nonempty_true t1 Ht1) Hmiss)
    as (news1 & r1 & x1 & w1 & _ & Hrun1 & Hn1 & Hs1 & _).
  destruct (save_results_fields t1 x1 (session w)) as (Hk1 & _).
  assert (Hmiss2 : cached t2 (session w1) = false).
  { apply (cached_other t1); [now rewrite Hs1 | exact Hne]. }
  destruct (perform_miss_state t2 w1 (nonempty_true t2 Ht2) Hmiss2)
    as (news2 & r2 & x2 & w2 & _ & Hrun2 & Hn2 & Hs2 & Hnil & Hcons).
  destruct (save_results_fields t2 x2 (session w1)) as (Hk2 & _).
  exists r1, w1, r2, w2.
  split; [exact Hrun1|]. split; [exact Hrun2|].
  split; [congruence|]. split; [now rewrite Hs2|].
  split; [apply (cached_other t2); [now rewrite Hs2 | congruence]|].
  intros r ->. rewrite Hs2.
  destruct news2 as [| a news2].
  - discriminate (Hnil eq_refl).
  - assert (Some r = Some x2) as [= ->] by (apply Hcons; discriminate).
    apply cached_save_results.
Qed.

(** X11. [perform_stock_news_analysis] never raises and never changes
    [num_articles].  It returns [None] in two cases only: the ticker is
    empty, or no results are saved for the ticker and the news source has
    no headline.  When results are saved for the ticker it returns them. *)
Theorem perform_none_iff (ticker : string) (w : world) :
  exists res w',
    perform_stock_news_analysis ticker w = (Ok res, w') /\
    ss_num_articles (session w') = ss_num_articles (session w) /\
    (res = None <->
     ticker = "" \/
     (cached ticker (session w) = false /\
      fst (get_stock_news ticker
             (default 3%nat (ss_num_articles (session w))) w) = Ok [])).
Proof.
  destruct (PyStr.nonempty ticker) eqn:Ht.
  - assert (Hne : ticker <> "") by (intros ->; discriminate).
    destruct (cached ticker (session w)) eqn:Hc.
    + do 2 eexists. split; [now apply perform_hit|].
      split; [reflexivity|]. split; [discriminate|].
      intros [-> | [? _]]; congruence.
    + destruct (perform_miss_state ticker w Ht Hc)
        as (news & res & r & w' & Hnews & Hrun & _ & Hs & Hnil & Hcons).
      exists res, w'. split; [exact Hrun|]. split.
      { rewrite Hs. apply save_results_fields. }
      rewrite Hnews. destruct news as [| a news].
      * split; auto.
      * rewrite Hcons by discriminate.
        split; [discriminate|]. intros [-> | [_ [=]]]. congruence.
  - apply nonempty_false in Ht. subst ticker.
    do 2 eexists. split; [reflexivity|]. split; [reflexivity|].
    split; auto.
Qed.

(** *** main.py *)

Lemma main_run (ticker : string) (analyze_button clear_button : bool)
    (w : world) :
  let w0 := entered ticker w in
  main ticker analyze_button clear_button w
  = if clear_button
    then (Ok Rerun, with_session (clear_saved (session w0)) w0)
    else if analyze_button
    then
      match perform_stock_news_analysis ticker w0 with
      | (Ok (Some r), w') => (Ok (Results ticker r), w')
      | (Ok None, w') => (Ok Blank, w')
      | (Raise e, w') => (Raise e, w')
      end
    else if ss_analysis_performed (session w0)
            && PyStr.nonempty (ss_ticker (session w0))
    then (Ok (Results (ss_ticker (session w0)) (saved_results (session w0))),
          w0)
    else (Ok Blank, w0).
Proof.
  cbv zeta. unfold main, entered.
  assert (Hfirst :
    (if PyStr.nonempty ticker
     then ss <- get_session ;; put_session (set_ticker ticker ss)
     else ret tt) w
    = (Ok tt, if PyStr.nonempty ticker
              then with_session (set_ticker ticker (session w)) w else w))
    by now destruct (PyStr.nonempty ticker).
  erewrite bind_ok by exact Hfirst.
  destruct clear_button; [reflexivity|].
  destruct analyze_button.
  - unfold bind.
    destruct (perform_stock_news_analysis ticker _) as [[[r |] | e] w'];
      reflexivity.
  - erewrite bind_ok by reflexivity.
    now destruct (_ && _).
Qed.

Lemma entered_frame (ticker : string) (w : world) :
  news_calls (entered ticker w) = news_calls w /\
  http_calls (entered ticker w) = http_calls w /\
  ui (entered ticker w) = ui w /\
  saved_results (session (entered ticker w)) = saved_results (session w) /\
  ss_analysis_performed (session (entered ticker w))
  = ss_analysis_performed (session w) /\
  ss_num_articles (session (entered ticker w)) = ss_num_articles (session w) /\
  ss_ticker (session (entered ticker w))
  = if PyStr.nonempty ticker then ticker else ss_ticker (session w).
Proof. unfold entered. destruct (PyStr.nonempty ticker); repeat split. Qed.

(** X12. Once results are saved, a run of [main] with any non-empty ticker
    in the text input shows them under that ticker, whether or not the
    Analyze button was pressed and whatever ticker they were computed for:
    the input is stored as the session ticker before the saved results
    are looked up.  The news source is not queried and no page is
    requested. *)
Theorem main_shows_saved (ticker : string) (analyze_button : bool)
    (w : world)
    (Hticker : ticker <> "")
    (Hsaved : ss_analysis_performed (session w) = true) :
  main ticker analyze_button false w
  = (Ok (Results ticker (saved_results (session w))),
     with_session (set_ticker ticker (session w)) w).
Proof.
  rewrite main_run. cbv zeta.
  pose proof (nonempty_true ticker Hticker) as Ht.
  unfold entered. rewrite Ht.
  destruct analyze_button.
  - rewrite perform_hit; [reflexivity | exact Ht |].
    unfold cached. cbn [session with_session ss_ticker set_ticker
                        ss_analysis_performed].
    now rewrite String.eqb_refl, Hsaved.
  - cbn [session with_session ss_ticker set_ticker ss_analysis_performed].
    now rewrite Hsaved, Ht.
Qed.

(** X13. The Clear button resets the flag, the session ticker, the rows and
    the combined sentiment, and reruns the script; it leaves the averages
    and the overall label as they were.  Nothing is queried or shown.  After it, a run with a non-empty ticker and the Analyze
    button pressed queries the news source again. *)
Theorem main_clear (ticker : string) (analyze_button : bool) (w : world) :
  exists w',
    main ticker analyze_button true w = (Ok Rerun, w') /\
    ss_analysis_performed (session w') = false /\
    ss_ticker (session w') = "" /\
    ss_news_df (session w') = [] /\
    ss_combined_sentiment (session w') = None /\
    (ss_avg_polarity (session w'), ss_avg_subjectivity (session w'),
     ss_overall_sentiment (session w'))
    = (ss_avg_polarity (session w), ss_avg_subjectivity (session w),
       ss_overall_sentiment (session w)) /\
    (news_calls w', http_calls w', ui w') = (news_calls w, http_calls w, ui w) /\
    forall t2, t2 <> "" ->
      exists p w'', main t2 true false w' = (Ok p, w'') /\
                    news_calls w'' = S (news_calls w).
Proof.
  rewrite main_run. cbv zeta. eexists. split; [reflexivity|].
  unfold entered.
  destruct (PyStr.nonempty ticker); do 6 (split; [reflexivity|]);
    intros t2 Ht2; rewrite main_run; cbv zeta;
    pose proof (nonempty_true t2 Ht2) as Hne; unfold entered; rewrite Hne;
    match goal with
    | |- context [perform_stock_news_analysis t2 ?w0] =>
        destruct (perform_miss_state t2 w0 Hne)
          as (news & res & r & w'' & _ & Hrun & Hn & _);
          [unfold cached; cbn; now rewrite andb_false_r|];
        rewrite Hrun; destruct res; eexists _, _;
          (split; [reflexivity | exact Hn])
    end.
Qed.

(** X14. A run of [main] never raises and queries the news source at most
    once.  It queries it exactly when the Analyze button is pressed, the
    Clear button is not, the ticker is not empty and no results are
    saved. *)
Theorem main_queries (ticker : string) (analyze_button clear_button : bool)
    (w : world) :
  exists p w',
    main ticker analyze_button clear_button w = (Ok p, w') /\
    (news_calls w' = news_calls w \/ news_calls w' = S (news_calls w)) /\
    (news_calls w' = S (news_calls w) <->
     clear_button = false /\ analyze_button = true /\ ticker <> "" /\
     ss_analysis_performed (session w) = false).
Proof.
  rewrite main_run. cbv zeta.
  destruct (entered_frame ticker w) as (Hn & _ & _ & _ & Hf & Hnum & Hk).
  destruct clear_button.
  { do 2 eexists. split; [reflexivity|]. cbn [session with_session
      clear_saved ss_num_articles news_calls].
    split; [now left|].
    split; [lia | intros [[=] _]]. }
  destruct analyze_button.
  2:{ destruct (_ && _); do 2 eexists; (split; [reflexivity|]);
        (split; [now left|]);
        (split; [lia | intros (_ & [=] & _)]). }
  destruct (PyStr.nonempty ticker) eqn:Ht.
  - assert (Hne : ticker <> "") by (intros ->; discriminate).
    assert (Hc : cached ticker (session (entered ticker w))
                 = ss_analysis_performed (session w)).
    { unfold cached. rewrite Hk, Hf, String.eqb_refl. reflexivity. }
    destruct (ss_analysis_performed (session w)) eqn:Hflag.
    + rewrite perform_hit by assumption. do 2 eexists.
      split; [reflexivity|]. split; [now left|].
      split; [lia | intros (_ & _ & _ & [=])].
    + destruct (perform_miss_state ticker _ Ht Hc)
        as (news & res & r & w' & _ & Hrun & Hn' & Hs & _).
      rewrite Hrun.
      destruct res; do 2 eexists; (split; [reflexivity|]);
        (split; [right; lia|]); (split; [auto | lia]).
  - apply nonempty_false in Ht. subst ticker.
    do 2 eexists. split; [reflexivity|].
    split; [now left|]. cbn [news_calls shown entered PyStr.nonempty].
    split; [lia | intros (_ & _ & H & _); congruence].
Qed.

(** X15. A run of [main] with no button pressed queries nothing, requests
    nothing and shows no event.  It leaves the results area blank exactly
    when no results are saved, or when both the text input and the session
    ticker are empty. *)
Theorem main_idle (ticker : string) (w : world) :
  exists p w',
    main ticker false false w = (Ok p, w') /\
    (news_calls w', http_calls w', ui w') = (news_calls w, http_calls w, ui w) /\
    (p = Blank <->
     ss_analysis_performed (session w) = false \/
     (ticker = "" /\ ss_ticker (session w) = "")).
Proof.
  rewrite main_run. cbv zeta.
  destruct (entered_frame ticker w) as (Hn & Hh & Hu & _ & Hf & _ & Hk).
  rewrite Hf, Hk.
  destruct (ss_analysis_performed (session w)); cbn [andb].
  - destruct (PyStr.nonempty ticker) eqn:Ht.
    + rewrite Ht. do 2 eexists. split; [reflexivity|].
      split; [congruence|]. split; [discriminate|].
      intros [[=] | [-> _]]. discriminate.
    + apply nonempty_false in Ht. subst ticker.
      destruct (PyStr.nonempty (ss_ticker (session w))) eqn:Hs;
        do 2 eexists; (split; [reflexivity|]); (split; [reflexivity|]).
      * split; [discriminate|]. intros [[=] | [_ Hk']].
        rewrite Hk' in Hs. discriminate.
      * apply nonempty_false in Hs. split; auto.
  - do 2 eexists. split; [reflexivity|]. split; [congruence|].
    split; auto.
Qed.

(** *** scraper.py: the clean-up *)

Lemma split_ws_spaceless (s : string) :
  spaceless (fst (split_ws s)) = true /\
  Forall (fun w => spaceless w = true) (snd (split_ws s)).
Proof.
  induction s as [| c s [IHw IHws]]; [split; [reflexivity | constructor]|].
  cbn [split_ws]. destruct (split_ws s) as [w ws]. cbn [fst snd] in *.
  destruct (PyStr.isspace c) eqn:Hc; cbn [fst snd].
  - split; [reflexivity|].
    destruct (PyStr.nonempty w); [constructor|]; assumption.
  - split; [| exact IHws]. cbn [spaceless]. now rewrite Hc, IHw.
Qed.

Lemma split_ws_word (w : string) :
  spaceless w = true -> split_ws w = (w, []).
Proof.
  induction w as [| c w IH]; [reflexivity|]. cbn [spaceless split_ws].
  intros [Hc Hw]%andb_true_iff. rewrite (IH Hw).
  apply negb_true_iff in Hc. now rewrite Hc.
Qed.

Lemma words_spec (s : string) :
  Forall (fun w => PyStr.nonempty w = true /\ spaceless w = true) (words s).
Proof.
  pose proof (split_ws_nonempty s) as Hne.
  destruct (split_ws_spaceless s) as [Hw Hws].
  unfold words. destruct (split_ws s) as [w ws]. cbn [fst snd] in *.
  assert (Hall : Forall (fun w => PyStr.nonempty w = true
                                  /\ spaceless w = true) ws).
  { clear w Hw. induction ws as [| x ws IH]; constructor.
    - split; [now inversion Hne | now inversion Hws].
    - apply IH; [now inversion Hne | now inversion Hws]. }
  destruct (PyStr.nonempty w) eqn:Hn; [constructor; auto | exact Hall].
Qed.

Lemma flat_map_words (l : list string) :
  Forall (fun w => PyStr.nonempty w = true /\ spaceless w = true) l ->
  flat_map words l = l.
Proof.
  induction 1 as [| w l [Hn Hs] _ IH]; [reflexivity|].
  cbn [flat_map]. rewrite IH. unfold words.
  now rewrite (split_ws_word w Hs), Hn.
Qed.

(** X16. The clean-up of the extracted text, [re.sub(r'\s+', ' ', t).strip()],
    leaves the words of the text, in order, with one space between two
    words: no other whitespace is left, none at either end.  Cleaning a
    cleaned text changes nothing. *)
Theorem clean_words (s : string) :
  clean s = PyStr.join " " (words s) /\
  Forall (fun w => PyStr.nonempty w = true /\ spaceless w = true) (words s) /\
  clean (clean s) = clean s.
Proof.
  assert (Hc : forall t, clean t = PyStr.join " " (words t))
    by (intros t; apply strip_re_sub_spaces).
  split; [apply Hc|]. split; [apply words_spec|].
  rewrite (Hc (clean s)), (Hc s), words_join.
  now rewrite flat_map_words by apply words_spec.
Qed.

(** X7. A page that is served with status 200 but has no word in a
    paragraph outside the dropped elements is handled as a failed
    extraction, and silently: [process_article] shows its two status
    lines and pauses, shows no warning, and returns the record with the
    failure string and the headline sentiment. *)
Theorem process_article_no_paragraph (a : article) (index total : nat)
    (w : world) (r : response) (soup : list Soup.node)
    (Hlink : dict_get a "link" "" <> "")
    (Hget : requests_get (http_calls w) (dict_get a "link" "") = Ok r)
    (H200 : status_code r = 200%Z)
    (Hparse : html_parser (text r) = Ok soup)
    (Hnone : flat_map words (flat_map (paragraphs_at dropped_tags) soup) = []) :
  exists rec w',
    process_article a index total w = (Ok rec, w') /\
    raw_text rec = Some failure_text /\
    (full_text_polarity rec, full_text_subjectivity rec,
     full_text_sentiment rec, full_text_emoji rec)
    = (headline_polarity rec, headline_subjectivity rec,
       headline_sentiment rec, headline_emoji rec) /\
    ui w' = ui w ++ [processing_status index total; extracting_status index;
                     Sleep (1 # 2)] /\
    http_calls w' = S (http_calls w).
Proof.
  destruct (process_article_run a index total w)
    as [(Hurl & _) | (_ & t & w1 & Hext & Hrun)].
  { apply nonempty_false in Hurl. contradiction. }
  set (w0 := shown (extracting_status index)
               (shown (processing_status index total) w)) in *.
  destruct (extract_article_text_run (dict_get a "link" "") w0)
    as [(e & Hget' & _) | [(r' & Hget' & Hst & _)
       | [(r' & e & Hget' & _ & Hparse' & _)
       | (r' & soup' & Hget' & _ & Hparse' & Hrun')]]];
    change (http_calls w0) with (http_calls w) in Hget';
    rewrite Hget in Hget'; try discriminate;
    injection Hget' as <-; try congruence.
  rewrite Hparse in Hparse'. injection Hparse' as <-.
  rewrite Hrun' in Hext. injection Hext as <- <-.
  assert (Ht : page_text soup = "").
  { rewrite page_text_spec. unfold spec_page_text. now rewrite Hnone. }
  rewrite Ht in Hrun.
  do 2 eexists. split; [exact Hrun|].
  split; [reflexivity|]. split; [reflexivity|].
  split; [| reflexivity].
  cbn [ui shown requested w0]. now rewrite <- !app_assoc.
Qed.

End App.

(** ** The application on the test doubles *)

(** C1. A run over one headline that has no link.  The only record is a
    failed extraction: its text is the fixed failure string.  That string
    is nevertheless what the loop collects for the combined analysis, and
    the combined sentiment is present: it is the sentiment of the failure
    string. *)
Theorem failure_text_in_combined_corpus :
  let headline : article := {[ "title" := "Quiet day" ]} in
  let record := article_record Stub.textblob headline "" in
  fst (get_stock_news Stub.yf_search "ONE" 3 initial_world) = Ok [headline] /\
  raw_text record = Some failure_text /\
  fst (process_loop Stub.requests_get Stub.html_parser Stub.textblob
         [headline] 0 1 [] [] initial_world)
  = Ok ([record], [failure_text]) /\
  exists avg_polarity avg_subjectivity,
    fst (analyze_stock_news_sentiment Stub.requests_get Stub.html_parser
           Stub.yf_search Stub.textblob Binary64.mean "ONE" 3 initial_world)
    = Ok (avg_polarity, avg_subjectivity, "Neutral", [del_raw_text record],
          Some {| polarity := PyFloat.py_0_1; subjectivity := 1 # 4;
                  sentiment := "Neutral"; emoji := "😐" |}).
Proof.
  cbv zeta. split; [vm_compute; reflexivity|].
  split; [vm_compute; reflexivity|].
  split; [vm_compute; reflexivity|].
  do 2 eexists. vm_compute. reflexivity.
Qed.

(** C4, as documented: with aside among the dropped elements, the
    statement fails on a page whose only paragraph is inside an aside. *)
Lemma aside_is_kept :
  ~ (forall (requests_get : nat -> string -> outcome response)
            (html_parser : string -> outcome (list Soup.node))
            (url : string) (w : world) (r : response)
            (soup : list Soup.node),
       requests_get (http_calls w) url = Ok r ->
       status_code r = 200%Z ->
       html_parser (text r) = Ok soup ->
       extract_article_text requests_get html_parser url w
       = (Ok (spec_page_text documented_tags soup), requested w)).
Proof.
  intros H.
  specialize (H Stub.requests_get Stub.html_parser "u" initial_world
                {| status_code := 200; text := "u" |} Stub.aside_page
                eq_refl eq_refl eq_refl).
  vm_compute in H. discriminate H.
Qed.


(** *** The statements above, on the test doubles *)

Lemma analyze_sentiment_thresholds_witness :
  Stub.textblob "" = (0%Q, 0%Q) /\
  analyze_sentiment Stub.textblob "" = (0%Q, 0%Q, "Neutral", "😐").
Proof.
  split; [reflexivity|].
  exact (proj2 (analyze_sentiment_thresholds Stub.textblob eq_refl
                  "Record profit")).
Defined.

Lemma extract_article_text_never_raises_witness :
  extract_article_text Stub.requests_get Stub.html_parser "500" initial_world
  = (Ok "", requested initial_world).
Proof.
  destruct (extract_article_text_never_raises Stub.requests_get
              Stub.html_parser "500" initial_world)
    as (s & w' & Hrun & H500 & _).
  destruct (H500 {| status_code := 500; text := "" |} eq_refl)
    as [Hs Hw]; [discriminate|].
  rewrite Hs, Hw in Hrun. exact Hrun.
Defined.

Lemma process_article_fallback_witness :
  let a : article := {[ "title" := "Outage"; "link" := "500" ]} in
  (dict_get a "link" "" = "" \/
   fst (extract_article_text Stub.requests_get Stub.html_parser
          (dict_get a "link" "") initial_world) = Ok "") /\
  exists r w',
    process_article Stub.requests_get Stub.html_parser Stub.textblob
      a 2 3 initial_world = (Ok r, w') /\
    raw_text r = Some failure_text /\ article_text r = failure_text.
Proof.
  cbv zeta.
  assert (Hfail :
    dict_get ({[ "title" := "Outage"; "link" := "500" ]} : article) "link" ""
    = "" \/
    fst (extract_article_text Stub.requests_get Stub.html_parser
           (dict_get ({[ "title" := "Outage"; "link" := "500" ]} : article)
              "link" "") initial_world) = Ok "")
    by (right; vm_compute; reflexivity).
  split; [exact Hfail|].
  destruct (process_article_fallback Stub.requests_get Stub.html_parser
              Stub.textblob _ 2 3 initial_world Hfail)
    as (r & w' & Hrun & _ & _ & Hraw & Htext).
  exists r, w'. auto.
Defined.

Lemma analyze_no_news_witness :
  let w1 := snd (get_stock_news Stub.yf_search "NONE" 3 initial_world) in
  get_stock_news Stub.yf_search "NONE" 3 initial_world = (Ok [], w1) /\
  analyze_stock_news_sentiment Stub.requests_get Stub.html_parser
    Stub.yf_search Stub.textblob Binary64.mean "NONE" 3 initial_world
  = (Ok (0%Q, 0%Q, "Neutral", [], None), w1).
Proof.
  cbv zeta. split; [reflexivity|].
  exact (proj1 (analyze_no_news Stub.requests_get Stub.html_parser
                  Stub.yf_search Stub.textblob Binary64.mean "NONE" 3 initial_world _
                  eq_refl)).
Defined.



Lemma perform_twice_queries_once_witness :
  "AAPL" <> "" /\ cached "AAPL" (session initial_world) = false /\
  exists r1 w1,
    perform_stock_news_analysis Stub.requests_get Stub.html_parser
      Stub.yf_search Stub.textblob Binary64.mean "AAPL" initial_world = (Ok r1, w1) /\
    news_calls w1 = 1%nat /\
    perform_stock_news_analysis Stub.requests_get Stub.html_parser
      Stub.yf_search Stub.textblob Binary64.mean "AAPL" w1
    = (Ok (Some (saved_results (session w1))), w1).
Proof.
  assert (Hticker : "AAPL" <> "") by discriminate.
  assert (Hmiss : cached "AAPL" (session initial_world) = false)
    by reflexivity.
  split; [exact Hticker|]. split; [exact Hmiss|].
  destruct (perform_twice_queries_once Stub.requests_get Stub.html_parser
              Stub.yf_search Stub.textblob Binary64.mean "AAPL" initial_world Hticker Hmiss)
    as (r1 & w1 & Hrun & _ & Hn & Hhit & _).
  exists r1, w1. auto.
Defined.

Lemma perform_none_then_saved_witness :
  "NONE" <> "" /\ cached "NONE" (session initial_world) = false /\
  fst (get_stock_news Stub.yf_search "NONE"
         (default 3%nat (ss_num_articles (session initial_world)))
         initial_world) = Ok [] /\
  exists w1,
    perform_stock_news_analysis Stub.requests_get Stub.html_parser
      Stub.yf_search Stub.textblob Binary64.mean "NONE" initial_world = (Ok None, w1) /\
    perform_stock_news_analysis Stub.requests_get Stub.html_parser
      Stub.yf_search Stub.textblob Binary64.mean "NONE" w1 = (Ok (Some no_news), w1).
Proof.
  assert (Hticker : "NONE" <> "") by discriminate.
  assert (Hmiss : cached "NONE" (session initial_world) = false)
    by reflexivity.
  assert (Hnone : fst (get_stock_news Stub.yf_search "NONE"
                         (default 3%nat
                            (ss_num_articles (session initial_world)))
                         initial_world) = Ok [])
    by reflexivity.
  split; [exact Hticker|]. split; [exact Hmiss|]. split; [exact Hnone|].
  destruct (perform_none_then_saved Stub.requests_get Stub.html_parser
              Stub.yf_search Stub.textblob Binary64.mean "NONE" initial_world
              Hticker Hmiss Hnone)
    as (_ & w1 & Hrun & _ & _ & _ & Hhit).
  exists w1. auto.
Defined.

Lemma extract_article_text_page_witness :
  Stub.requests_get (http_calls initial_world) "u"
  = Ok {| status_code := 200; text := "u" |} /\
  Stub.html_parser "u" = Ok Stub.aside_page /\
  extract_article_text Stub.requests_get Stub.html_parser "u" initial_world
  = (Ok "ad", requested initial_world).
Proof.
  split; [reflexivity|]. split; [reflexivity|].
  exact (extract_article_text_page Stub.requests_get Stub.html_parser "u"
           initial_world {| status_code := 200; text := "u" |}
           Stub.aside_page eq_refl eq_refl eq_refl).
Defined.

(** *** The further statements, on the test doubles *)

Lemma combined_sentiment_present_witness :
  exists news w1,
    get_stock_news Stub.yf_search "ONE" 3 initial_world = (Ok news, w1) /\
    news <> [] /\
    exists r w2 c,
      analyze_stock_news_sentiment Stub.requests_get Stub.html_parser
        Stub.yf_search Stub.textblob Binary64.mean "ONE" 3 initial_world = (Ok r, w2) /\
      snd r = Some c.
Proof.
  eexists _, _.
  assert (Hnews : get_stock_news Stub.yf_search "ONE" 3 initial_world
                  = (Ok (firstn 3 [ ({[ "title" := "Quiet day" ]} : article) ]),
                     snd (get_stock_news Stub.yf_search "ONE" 3
                            initial_world)))
    by reflexivity.
  split; [exact Hnews|].
  assert (Hne : firstn 3 [ ({[ "title" := "Quiet day" ]} : article) ] <> [])
    by discriminate.
  split; [exact Hne|].
  exact (combined_sentiment_present Stub.requests_get Stub.html_parser
           Stub.yf_search Stub.textblob Binary64.mean "ONE" 3 initial_world _ _ Hnews Hne).
Defined.

Lemma process_article_no_paragraph_witness :
  let a : article := {[ "title" := "Record profit"; "link" := "u" ]} in
  dict_get a "link" "" <> "" /\
  Stub.requests_get (http_calls initial_world) (dict_get a "link" "")
  = Ok {| status_code := 200; text := "u" |} /\
  flat_map words
    (flat_map (paragraphs_at dropped_tags)
       [Soup.Tag "script" [Soup.Tag "p" [Soup.Text "tracking"]];
        Soup.Tag "div" [Soup.Text "no paragraph here"]]) = [] /\
  exists rec w',
    process_article Stub.requests_get script_only_parser Stub.textblob
      a 0 1 initial_world = (Ok rec, w') /\
    raw_text rec = Some failure_text.
Proof.
  cbv zeta.
  assert (Hlink : dict_get ({[ "title" := "Record profit"; "link" := "u" ]}
                              : article) "link" "" <> "")
    by (vm_compute; discriminate).
  assert (Hget : Stub.requests_get (http_calls initial_world)
                   (dict_get ({[ "title" := "Record profit"; "link" := "u" ]}
                                : article) "link" "")
                 = Ok {| status_code := 200; text := "u" |})
    by (vm_compute; reflexivity).
  assert (Hnone : flat_map words
                    (flat_map (paragraphs_at dropped_tags)
                       [Soup.Tag "script" [Soup.Tag "p" [Soup.Text "tracking"]];
                        Soup.Tag "div" [Soup.Text "no paragraph here"]]) = [])
    by reflexivity.
  split; [exact Hlink|]. split; [exact Hget|]. split; [exact Hnone|].
  destruct (process_article_no_paragraph Stub.requests_get script_only_parser
              Stub.textblob _ 0 1 initial_world _ _ Hlink Hget eq_refl
              eq_refl Hnone)
    as (rec & w' & Hrun & Hraw & _).
  exists rec, w'. auto.
Defined.

Lemma perform_other_ticker_witness :
  "AAPL" <> "" /\ "MSFT" <> "" /\ "AAPL" <> "MSFT" /\
  cached "AAPL" (session initial_world) = false /\
  exists r1 w1 r2 w2,
    perform_stock_news_analysis Stub.requests_get Stub.html_parser
      Stub.yf_search Stub.textblob Binary64.mean "AAPL" initial_world = (Ok r1, w1) /\
    perform_stock_news_analysis Stub.requests_get Stub.html_parser
      Stub.yf_search Stub.textblob Binary64.mean "MSFT" w1 = (Ok r2, w2) /\
    news_calls w2 = 2%nat /\ ss_ticker (session w2) = "MSFT".
Proof.
  assert (H1 : "AAPL" <> "") by discriminate.
  assert (H2 : "MSFT" <> "") by discriminate.
  assert (H3 : "AAPL" <> "MSFT") by discriminate.
  assert (H4 : cached "AAPL" (session initial_world) = false) by reflexivity.
  do 4 (split; [assumption|]).
  destruct (perform_other_ticker Stub.requests_get Stub.html_parser
              Stub.yf_search Stub.textblob Binary64.mean "AAPL" "MSFT" initial_world
              H1 H2 H3 H4)
    as (r1 & w1 & r2 & w2 & Hrun1 & Hrun2 & Hn & Hk & _).
  exists r1, w1, r2, w2. auto.
Defined.

Lemma main_shows_saved_witness :
  let w := snd (perform_stock_news_analysis Stub.requests_get
                  Stub.html_parser Stub.yf_search Stub.textblob Binary64.mean "AAPL"
                  initial_world) in
  "MSFT" <> "" /\ ss_analysis_performed (session w) = true /\
  ss_ticker (session w) = "AAPL" /\
  main Stub.requests_get Stub.html_parser Stub.yf_search Stub.textblob Binary64.mean
    "MSFT" true false w
  = (Ok (Results "MSFT" (saved_results (session w))),
     with_session (set_ticker "MSFT" (session w)) w).
Proof.
  cbv zeta.
  assert (H1 : "MSFT" <> "") by discriminate.
  split; [exact H1|].
  assert (H2 : ss_analysis_performed
                 (session (snd (perform_stock_news_analysis Stub.requests_get
                                  Stub.html_parser Stub.yf_search
                                  Stub.textblob Binary64.mean "AAPL" initial_world)))
               = true)
    by (vm_compute; reflexivity).
  split; [exact H2|]. split; [vm_compute; reflexivity|].
  exact (main_shows_saved Stub.requests_get Stub.html_parser Stub.yf_search
           Stub.textblob Binary64.mean "MSFT" true _ H1 H2).
Defined.
